(** * A two-layer perceptron trained by hand-written backpropagation

    Shallow embedding of the class [MLP] of [neural_networks.py]
    (constructor, [forward], [backward]) together with the part of numpy it
    calls.

    - A float64 is a primitive binary64 float of Rocq ([PrimFloat.float]);
      arithmetic is the IEEE arithmetic of the kernel, no algebraic law is
      assumed.
    - A 2-D [ndarray] is a record carrying its shape and its rows.
    - A method of the class is a function from the object [self] to an
      outcome and the object after the call: the object is returned on an
      exception too, because Python keeps every attribute assigned before
      the [raise].
    - What numpy computes in a way the source does not determine is a
      parameter, bundled in [NumpyEnv]: the global generator, the libm
      functions [tanh] and [exp], and the values [np.dot] and [np.sum]
      return for a sum of several terms (their order of accumulation and
      rounding depend on the library build and on the shape of the
      operands). *)

From Stdlib Require Import List String ZArith Floats Uint63 Lia Bool PeanoNat.
Import ListNotations.

Set Implicit Arguments.

(* ================================================================== *)
(** * The numpy fragment used by the class *)
(* ================================================================== *)

Module Numpy.

(** A two-dimensional float64 array: [shape = (nrows, ncols)], row-major
    contents.  The shape is stored, as in numpy, so that an array with
    zero rows still has a column count. *)
Record ndarray : Type := mk_ndarray
  { nrows : nat;
    ncols : nat;
    cells : list (list float) }.

Definition shape (A : ndarray) : nat * nat := (nrows A, ncols A).

(** The contents agree with the stored shape. *)
Definition wf (A : ndarray) : bool :=
  (List.length (cells A) =? nrows A)
  && forallb (fun r => List.length r =? ncols A) (cells A).

(** [A[i, j]] *)
Definition get (A : ndarray) (i j : nat) : float :=
  nth j (nth i (cells A) []) 0%float.

(** The array of shape [(r, c)] whose entry [(i, j)] is [f i j]. *)
Definition tabulate (r c : nat) (f : nat -> nat -> float) : ndarray :=
  mk_ndarray r c (map (fun i => map (fun j => f i j) (seq 0 c)) (seq 0 r)).

(** Exceptions the class can raise. *)
Inductive exn : Type :=
| ValueError (msg : string)
| AttributeError (attr : string).

Inductive outcome (A : Type) : Type :=
| Returned (a : A)
| Raised (e : exn).
Arguments Returned {A} a.
Arguments Raised {A} e.

(** What the class needs from numpy and is not determined by the source:
    the global pseudo-random generator ([np.random.seed],
    [np.random.randn]), the libm functions behind [np.tanh] and [np.exp],
    and the inner products and column sums of floats.  [dot_entry A B i j]
    is the entry [(i, j)] of [np.dot(A, B)] and [sum0_entry A j] the entry
    [j] of [np.sum(A, axis=0)]; both may depend on the whole operands,
    since the library chooses its kernel by their shapes. *)
Record NumpyEnv : Type := mk_env
  { rng_state : Type;
    seed : nat -> rng_state;
    randn : nat -> nat -> rng_state -> ndarray * rng_state;
    tanh1 : float -> float;
    exp1 : float -> float;
    dot_entry : ndarray -> ndarray -> nat -> nat -> float;
    sum0_entry : ndarray -> nat -> float }.

(** Conversion of a Python int (a row count) to float64, as done by
    [array / m]. *)
Definition float_of_nat (m : nat) : float :=
  PrimFloat.of_uint63 (Uint63.of_Z (Z.of_nat m)).

(** Sum of [f 0], ..., [f (n-1)], accumulated from the left: one of the
    orders a library may use.  Only the sample environment is built on
    it. *)
Definition fsum (n : nat) (f : nat -> float) : float :=
  fold_left (fun acc k => (acc + f k)%float) (seq 0 n) 0%float.

(** Entry [(i, j)] of [np.dot(A, B)]: zero when the inner dimension is
    empty, else what the library computes. *)
Definition dot_at (E : NumpyEnv) (A B : ndarray) (i j : nat) : float :=
  if ncols A =? 0 then 0%float else dot_entry E A B i j.

(** [np.dot(A, B)] on 2-D arrays. *)
Definition np_dot (E : NumpyEnv) (A B : ndarray) : outcome ndarray :=
  if ncols A =? nrows B
  then Returned (tabulate (nrows A) (ncols B) (dot_at E A B))
  else Raised (ValueError "shapes not aligned").

(** Broadcasting of one dimension: equal sizes, or one of them is 1. *)
Definition broadcast_dim (a b : nat) : option nat :=
  if a =? b then Some a
  else if a =? 1 then Some b
  else if b =? 1 then Some a
  else None.

(** Index into a dimension of size [n] that may have been stretched. *)
Definition bidx (n i : nat) : nat := if n =? 1 then 0 else i.

Definition bget (A : ndarray) (i j : nat) : float :=
  get A (bidx (nrows A) i) (bidx (ncols A) j).

(** An elementwise binary operator on two arrays, with broadcasting. *)
Definition np_binop (op : float -> float -> float) (A B : ndarray)
  : outcome ndarray :=
  match broadcast_dim (nrows A) (nrows B), broadcast_dim (ncols A) (ncols B) with
  | Some r, Some c =>
      Returned (tabulate r c (fun i j => op (bget A i j) (bget B i j)))
  | _, _ => Raised (ValueError "operands could not be broadcast together")
  end.

Definition np_add : ndarray -> ndarray -> outcome ndarray := np_binop PrimFloat.add.
Definition np_sub : ndarray -> ndarray -> outcome ndarray := np_binop PrimFloat.sub.
Definition np_mul : ndarray -> ndarray -> outcome ndarray := np_binop PrimFloat.mul.

(** The in-place [A -= B]: [B] is broadcast to the shape of [A]; the
    result must have the shape of [A].  Every array of the class is
    allocated by the numpy call that produced it and is referenced by one
    attribute only, so the update in place is the assignment of the new
    contents to that attribute. *)
Definition np_isub (A B : ndarray) : outcome ndarray :=
  match np_sub A B with
  | Returned R =>
      if (nrows R =? nrows A) && (ncols R =? ncols A)
      then Returned R
      else Raised (ValueError "non-broadcastable output operand")
  | Raised e => Raised e
  end.

(** A unary ufunc, or an operator between the array and a scalar. *)
Definition amap (f : float -> float) (A : ndarray) : ndarray :=
  tabulate (nrows A) (ncols A) (fun i j => f (get A i j)).

(** An operator between two arrays built from the same argument, hence of
    the same shape: no broadcasting takes place. *)
Definition amap2 (op : float -> float -> float) (A B : ndarray) : ndarray :=
  tabulate (nrows A) (ncols A) (fun i j => op (get A i j) (get B i j)).

(** [A / m] for a Python int [m] *)
Definition div_int (A : ndarray) (m : nat) : ndarray :=
  amap (fun v => (v / float_of_nat m)%float) A.

(** [s * A] for a Python float [s] *)
Definition scalar_mul (s : float) (A : ndarray) : ndarray :=
  amap (fun v => (s * v)%float) A.

(** Entry [j] of [np.sum(A, axis=0)]: zero when there is no row, else
    what the library computes. *)
Definition sum0_at (E : NumpyEnv) (A : ndarray) (j : nat) : float :=
  if nrows A =? 0 then 0%float else sum0_entry E A j.

(** [np.sum(A, axis=0, keepdims=True)] *)
Definition np_sum_axis0 (E : NumpyEnv) (A : ndarray) : ndarray :=
  tabulate 1 (ncols A) (fun _ j => sum0_at E A j).

(** [A.T] *)
Definition transpose (A : ndarray) : ndarray :=
  tabulate (ncols A) (nrows A) (fun i j => get A j i).

(** [np.zeros((r, c))] *)
Definition np_zeros (r c : nat) : ndarray := tabulate r c (fun _ _ => 0%float).

(** One entry of [np.maximum(in1, in2)], as numpy computes it with the
    vector maximum of x86-64: a NaN [in1] is returned; otherwise [in1]
    when [in1 > in2] and [in2] in every other case, which returns a NaN
    [in2] and, of two zeros, the second ([np.maximum(0, -0.0)] is
    [-0.0]). *)
Definition maximum1 (in1 in2 : float) : float :=
  if PrimFloat.is_nan in1 then in1
  else if (in2 <? in1)%float then in1 else in2.

Definition np_maximum_scalar (s : float) (A : ndarray) : ndarray :=
  amap (maximum1 s) A.

(** [(A > s).astype(float)] *)
Definition gt_scalar_as_float (A : ndarray) (s : float) : ndarray :=
  amap (fun v => if (s <? v)%float then 1%float else 0%float) A.

Definition np_tanh (E : NumpyEnv) : ndarray -> ndarray := amap (tanh1 E).
Definition np_exp (E : NumpyEnv) : ndarray -> ndarray := amap (exp1 E).

End Numpy.
Import Numpy.

(* ================================================================== *)
(** * The class MLP *)
(* ================================================================== *)

(** The dictionary stored in [self.gradients]; its four keys are fixed. *)
Record Gradients : Type := mk_gradients
  { dW1 : ndarray;
    db1 : ndarray;
    dW2 : ndarray;
    db2 : ndarray }.

(** The attributes of an instance.  [z1], [a1], [z2], [a2] exist only after
    a call of [forward], [gradients] only after a call of [backward]. *)
Record MLP : Type := mk_MLP
  { lr : float;
    activation_fn : string;
    W1 : ndarray;
    b1 : ndarray;
    W2 : ndarray;
    b2 : ndarray;
    activation : ndarray -> ndarray;
    activation_prime : ndarray -> ndarray;
    z1 : option ndarray;
    a1 : option ndarray;
    z2 : option ndarray;
    a2 : option ndarray;
    gradients : option Gradients }.

(** ** Methods: state of [self] and exceptions *)

Definition method (A : Type) : Type := MLP -> outcome A * MLP.

Definition ret {A : Type} (a : A) : method A := fun self => (Returned a, self).

Definition bind {A B : Type} (m : method A) (k : A -> method B) : method B :=
  fun self =>
    match m self with
    | (Returned a, self') => k a self'
    | (Raised e, self') => (Raised e, self')
    end.

Declare Scope method_scope.
Delimit Scope method_scope with method.
Notation "x <- m ;; k" := (bind m (fun x => k))
  (at level 61, m at next level, right associativity) : method_scope.
Notation "m ;;; k" := (bind m (fun _ => k))
  (at level 61, right associativity) : method_scope.
Open Scope method_scope.

(** The result of a numpy call, raised further when it is an exception. *)
Definition lift {A : Type} (o : outcome A) : method A := fun self => (o, self).

(** [self.f] for an attribute set by the constructor *)
Definition getattr {A : Type} (f : MLP -> A) : method A :=
  fun self => (Returned (f self), self).

(** [self.f] for an attribute that may not exist yet *)
Definition getattr_opt {A : Type} (f : MLP -> option A) (name : string) : method A :=
  fun self =>
    match f self with
    | Some a => (Returned a, self)
    | None => (Raised (AttributeError name), self)
    end.

Definition modify (f : MLP -> MLP) : method unit :=
  fun self => (Returned tt, f self).

Definition set_W1 (v : ndarray) (s : MLP) : MLP :=
  mk_MLP (lr s) (activation_fn s) v (b1 s) (W2 s) (b2 s) (activation s)
         (activation_prime s) (z1 s) (a1 s) (z2 s) (a2 s) (gradients s).
Definition set_b1 (v : ndarray) (s : MLP) : MLP :=
  mk_MLP (lr s) (activation_fn s) (W1 s) v (W2 s) (b2 s) (activation s)
         (activation_prime s) (z1 s) (a1 s) (z2 s) (a2 s) (gradients s).
Definition set_W2 (v : ndarray) (s : MLP) : MLP :=
  mk_MLP (lr s) (activation_fn s) (W1 s) (b1 s) v (b2 s) (activation s)
         (activation_prime s) (z1 s) (a1 s) (z2 s) (a2 s) (gradients s).
Definition set_b2 (v : ndarray) (s : MLP) : MLP :=
  mk_MLP (lr s) (activation_fn s) (W1 s) (b1 s) (W2 s) v (activation s)
         (activation_prime s) (z1 s) (a1 s) (z2 s) (a2 s) (gradients s).
Definition set_z1 (v : ndarray) (s : MLP) : MLP :=
  mk_MLP (lr s) (activation_fn s) (W1 s) (b1 s) (W2 s) (b2 s) (activation s)
         (activation_prime s) (Some v) (a1 s) (z2 s) (a2 s) (gradients s).
Definition set_a1 (v : ndarray) (s : MLP) : MLP :=
  mk_MLP (lr s) (activation_fn s) (W1 s) (b1 s) (W2 s) (b2 s) (activation s)
         (activation_prime s) (z1 s) (Some v) (z2 s) (a2 s) (gradients s).
Definition set_z2 (v : ndarray) (s : MLP) : MLP :=
  mk_MLP (lr s) (activation_fn s) (W1 s) (b1 s) (W2 s) (b2 s) (activation s)
         (activation_prime s) (z1 s) (a1 s) (Some v) (a2 s) (gradients s).
Definition set_a2 (v : ndarray) (s : MLP) : MLP :=
  mk_MLP (lr s) (activation_fn s) (W1 s) (b1 s) (W2 s) (b2 s) (activation s)
         (activation_prime s) (z1 s) (a1 s) (z2 s) (Some v) (gradients s).
Definition set_gradients (v : Gradients) (s : MLP) : MLP :=
  mk_MLP (lr s) (activation_fn s) (W1 s) (b1 s) (W2 s) (b2 s) (activation s)
         (activation_prime s) (z1 s) (a1 s) (z2 s) (a2 s) (Some v).

(** ** Activation functions (lines 28-36) *)

(** [lambda x: 1 - np.tanh(x) ** 2]; the power 2 of a float64 array is the
    square [v * v]. *)
Definition tanh_prime (E : NumpyEnv) (x : ndarray) : ndarray :=
  amap (fun v => (1 - v)%float) (amap (fun v => (v * v)%float) (np_tanh E x)).

(** [lambda x: np.maximum(0, x)] *)
Definition relu (x : ndarray) : ndarray := np_maximum_scalar 0%float x.

(** [lambda x: (x > 0).astype(float)] *)
Definition relu_prime (x : ndarray) : ndarray := gt_scalar_as_float x 0%float.

(** [lambda x: 1 / (1 + np.exp(-x))] *)
Definition sigmoid (E : NumpyEnv) (x : ndarray) : ndarray :=
  amap (fun v => (1 / v)%float)
       (amap (fun v => (1 + v)%float)
             (np_exp E (amap PrimFloat.opp x))).

(** [lambda x: self.activation(x) * (1 - self.activation(x))], where
    [self.activation] is the attribute at the time of the call; [act] is
    that attribute. *)
Definition sigmoid_prime (act : ndarray -> ndarray) (x : ndarray) : ndarray :=
  amap2 PrimFloat.mul (act x) (amap (fun v => (1 - v)%float) (act x)).

(** ** The constructor (lines 16-38)

    It runs on numpy's global generator: the state of the generator is
    threaded through, and is returned on failure too.  Dimensions are
    natural numbers. *)
Definition MLP_init (E : NumpyEnv)
    (input_dim hidden_dim output_dim : nat) (lr0 : float) (activation0 : string)
    (g : rng_state E) : outcome MLP * rng_state E :=
  let g0 := seed E 0 in
  let '(w1, g1) := randn E input_dim hidden_dim g0 in
  let bias1 := np_zeros 1 hidden_dim in
  let '(w2, g2) := randn E hidden_dim output_dim g1 in
  let bias2 := np_zeros 1 output_dim in
  let self act act' :=
    mk_MLP lr0 activation0 w1 bias1 w2 bias2 act act' None None None None None in
  if String.eqb activation0 "tanh" then
    (Returned (self (np_tanh E) (tanh_prime E)), g2)
  else if String.eqb activation0 "relu" then
    (Returned (self relu relu_prime), g2)
  else if String.eqb activation0 "sigmoid" then
    (Returned (self (sigmoid E) (sigmoid_prime (sigmoid E))), g2)
  else
    (Raised (ValueError "Activation function not supported"), g2).

(** ** forward (lines 40-46) *)
Definition forward (E : NumpyEnv) (X : ndarray) : method ndarray :=
  w1 <- getattr W1 ;;
  d1 <- lift (np_dot E X w1) ;;
  bias1 <- getattr b1 ;;
  s1 <- lift (np_add d1 bias1) ;;
  modify (set_z1 s1) ;;;
  act <- getattr activation ;;
  z1v <- getattr_opt z1 "z1" ;;
  modify (set_a1 (act z1v)) ;;;
  a1v <- getattr_opt a1 "a1" ;;
  w2 <- getattr W2 ;;
  d2 <- lift (np_dot E a1v w2) ;;
  bias2 <- getattr b2 ;;
  s2 <- lift (np_add d2 bias2) ;;
  modify (set_z2 s2) ;;;
  act2 <- getattr activation ;;
  z2v <- getattr_opt z2 "z2" ;;
  modify (set_a2 (act2 z2v)) ;;;
  getattr_opt a2 "a2".

(** ** backward (lines 48-74) *)
Definition backward (E : NumpyEnv) (X y : ndarray) : method unit :=
  let m := nrows X in
  (* output layer gradients *)
  a2v <- getattr_opt a2 "a2" ;;
  delta2 <- lift (np_sub a2v y) ;;
  a1v <- getattr_opt a1 "a1" ;;
  p2 <- lift (np_dot E (transpose a1v) delta2) ;;
  let dW2v := div_int p2 m in
  let db2v := div_int (np_sum_axis0 E delta2) m in
  (* hidden layer gradients *)
  w2 <- getattr W2 ;;
  back <- lift (np_dot E delta2 (transpose w2)) ;;
  act' <- getattr activation_prime ;;
  z1v <- getattr_opt z1 "z1" ;;
  delta1 <- lift (np_mul back (act' z1v)) ;;
  p1 <- lift (np_dot E (transpose X) delta1) ;;
  let dW1v := div_int p1 m in
  let db1v := div_int (np_sum_axis0 E delta1) m in
  (* update weights and biases *)
  w2a <- getattr W2 ;; rate <- getattr lr ;;
  w2' <- lift (np_isub w2a (scalar_mul rate dW2v)) ;;
  modify (set_W2 w2') ;;;
  b2a <- getattr b2 ;; rate <- getattr lr ;;
  b2' <- lift (np_isub b2a (scalar_mul rate db2v)) ;;
  modify (set_b2 b2') ;;;
  w1a <- getattr W1 ;; rate <- getattr lr ;;
  w1' <- lift (np_isub w1a (scalar_mul rate dW1v)) ;;
  modify (set_W1 w1') ;;;
  b1a <- getattr b1 ;; rate <- getattr lr ;;
  b1' <- lift (np_isub b1a (scalar_mul rate db1v)) ;;
  modify (set_b1 b1') ;;;
  (* store gradients for visualization *)
  modify (set_gradients (mk_gradients dW1v db1v dW2v db2v)).

(* ================================================================== *)
(** * The formulas of the design, entry by entry *)
(* ================================================================== *)

(** Each definition below follows the wording of the design document and
    gives the entry [(i, j)] of the tensor it names; the theorems compare
    them with what the methods above compute.  A matrix product [A . B]
    of the document is numpy's: its entry [(i, j)] is [dot_at E A B i j];
    a columnwise sum is [sum0_at E]. *)
Module Design.

(** [X.W + b], the bias row [b] being added to every row. *)
Definition affine (E : NumpyEnv) (X W b : ndarray) : ndarray :=
  tabulate (nrows X) (ncols W)
    (fun i j => (dot_at E X W i j + get b 0 j)%float).

(** [delta2 = A2 - y] *)
Definition delta2 (A2 y : ndarray) : ndarray :=
  tabulate (nrows A2) (ncols A2) (fun i j => (get A2 i j - get y i j)%float).

(** [A^T . D / N] *)
Definition weight_grad (E : NumpyEnv) (A D : ndarray) (N : nat) : ndarray :=
  tabulate (ncols A) (ncols D)
    (fun i j => (dot_at E (transpose A) D i j / float_of_nat N)%float).

(** [columnwise-sum(D) / N], a row vector *)
Definition bias_grad (E : NumpyEnv) (D : ndarray) (N : nat) : ndarray :=
  tabulate 1 (ncols D)
    (fun _ j => (sum0_at E D j / float_of_nat N)%float).

(** [delta1 = (delta2 . W2^T) (.) P], where [P] is [phi'(Z1)] *)
Definition delta1 (E : NumpyEnv) (D2 W P : ndarray) : ndarray :=
  tabulate (nrows D2) (nrows W)
    (fun i j => (dot_at E D2 (transpose W) i j * get P i j)%float).

(** [parameter - learning_rate * gradient], componentwise *)
Definition descent (rate : float) (P dP : ndarray) : ndarray :=
  tabulate (nrows P) (ncols P)
    (fun i j => (get P i j - rate * get dP i j)%float).

(** The three activation kinds and the table of section 4.1, on one
    float; [th] and [ex] are the functions tanh and exp. *)
Inductive kind : Type := Tanh | Relu | Sigmoid.

Definition kind_name (k : kind) : string :=
  match k with Tanh => "tanh" | Relu => "relu" | Sigmoid => "sigmoid" end.

(** [max(a, b)]: [a] when [a > b], else [b]. *)
Definition fmax (a b : float) : float := if (b <? a)%float then a else b.

Definition phi (th ex : float -> float) (k : kind) (x : float) : float :=
  match k with
  | Tanh => th x
  | Relu => fmax 0 x
  | Sigmoid => (1 / (1 + ex (- x)))%float
  end.

Definition phi' (th ex : float -> float) (k : kind) (x : float) : float :=
  match k with
  | Tanh => (1 - th x * th x)%float
  | Relu => if (0 <? x)%float then 1%float else 0%float
  | Sigmoid => (phi th ex Sigmoid x * (1 - phi th ex Sigmoid x))%float
  end.

(** The parameters have the shapes of a network with the given
    dimensions. *)
Definition param_shapes (input_dim hidden_dim output_dim : nat) (s : MLP) : Prop :=
  shape (W1 s) = (input_dim, hidden_dim) /\
  shape (b1 s) = (1, hidden_dim) /\
  shape (W2 s) = (hidden_dim, output_dim) /\
  shape (b2 s) = (1, output_dim).

End Design.

(* ================================================================== *)
(** * Well-shaped networks *)
(* ================================================================== *)

(** The activation and its derivative act entry by entry: they keep the
    shape of their argument. *)
Definition shape_preserving (f : ndarray -> ndarray) : Prop :=
  forall Z, shape (f Z) = shape Z.

(** A network with the given dimensions: what the constructor
    establishes and the two methods keep. *)
Definition network_ok (input_dim hidden_dim output_dim : nat) (s : MLP) : Prop :=
  Design.param_shapes input_dim hidden_dim output_dim s /\
  shape_preserving (activation s) /\
  shape_preserving (activation_prime s).

(** [np.random.randn(r, c)] returns an array of shape [(r, c)]. *)
Definition env_ok (E : NumpyEnv) : Prop :=
  forall r c g, shape (fst (randn E r c g)) = (r, c).

(** The object after a successful [forward]: only the four cached tensors
    are assigned. *)
Definition after_forward (s : MLP) (Z1 A1 Z2 A2 : ndarray) : MLP :=
  set_a2 A2 (set_z2 Z2 (set_a1 A1 (set_z1 Z1 s))).

(** The gradients of the design for a batch [X], labels [y], the cached
    tensors [Z1], [A1], [A2] and the network [s] before the update. *)
Definition design_gradients (E : NumpyEnv) (s : MLP) (X y Z1 A1 A2 : ndarray) : Gradients :=
  let N := nrows X in
  let d2 := Design.delta2 A2 y in
  let d1 := Design.delta1 E d2 (W2 s) (activation_prime s Z1) in
  mk_gradients (Design.weight_grad E X d1 N) (Design.bias_grad E d1 N)
               (Design.weight_grad E A1 d2 N) (Design.bias_grad E d2 N).

(** The object after a successful [backward] that computed [g]. *)
Definition after_backward (s : MLP) (g : Gradients) : MLP :=
  set_gradients g
    (set_b1 (Design.descent (lr s) (b1 s) (db1 g))
      (set_W1 (Design.descent (lr s) (W1 s) (dW1 g))
        (set_b2 (Design.descent (lr s) (b2 s) (db2 g))
          (set_W2 (Design.descent (lr s) (W2 s) (dW2 g)) s)))).

(** What a call leaves untouched. *)
Definition same_parameters (s s' : MLP) : Prop :=
  W1 s' = W1 s /\ b1 s' = b1 s /\ W2 s' = W2 s /\ b2 s' = b2 s.

Definition same_cache (s s' : MLP) : Prop :=
  z1 s' = z1 s /\ a1 s' = a1 s /\ z2 s' = z2 s /\ a2 s' = a2 s.

Definition same_settings (s s' : MLP) : Prop :=
  lr s' = lr s /\ activation_fn s' = activation_fn s /\
  activation s' = activation s /\ activation_prime s' = activation_prime s.

(* ================================================================== *)
(** * Sample objects *)
(* ================================================================== *)

(** Concrete arrays and a concrete network on which the statements below
    are instantiated.  The network is the one of the script (2 inputs, 3
    hidden units, 1 output) with the relu activation; every number is a
    binary64 value. *)
Module Sample.

Definition of_rows (r c : nat) (l : list (list float)) : ndarray :=
  mk_ndarray r c l.

Definition w1 : ndarray :=
  of_rows 2 3 [[0.5; -1; 0.25]; [1; 0.5; -0.5]]%float.
Definition w2 : ndarray := of_rows 3 1 [[1]; [-1]; [0.5]]%float.

Definition net : MLP :=
  mk_MLP 0.5%float "relu" w1 (np_zeros 1 3) w2 (np_zeros 1 1)
         relu relu_prime None None None None None.

(** Two samples, with their two labels. *)
Definition X : ndarray := of_rows 2 2 [[1; 2]; [0.5; -1]]%float.
Definition y : ndarray := of_rows 2 1 [[1]; [-1]]%float.

(** A label array with a single row. *)
Definition y_one_row : ndarray := of_rows 1 1 [[-1]]%float.

(** Label and batch arrays with three rows. *)
Definition y_three_rows : ndarray := of_rows 3 1 [[1]; [-1]; [1]]%float.
Definition X_three_rows : ndarray :=
  of_rows 3 2 [[1; 2]; [0.5; -1]; [0; 0]]%float.

(** A sample environment.  Its generator is deterministic: the state
    counts the numbers drawn so far.  Its two scalar functions stand for
    tanh and exp, and its products and column sums are accumulated from
    the left.  No statement depends on these choices. *)
Definition env : NumpyEnv :=
  mk_env (fun n => n)
         (fun r c (g : nat) =>
            (tabulate r c (fun i j => float_of_nat (g + i * c + j)), g + r * c))
         (fun x => (x / (1 + PrimFloat.abs x))%float)
         (fun x => (1 + x + x * x / 2)%float)
         (fun A B i j => fsum (ncols A) (fun k => (get A i k * get B k j)%float))
         (fun A j => fsum (nrows A) (fun i => get A i j)).

(** The sample network after [forward X], and after the following
    [backward X y]. *)
Definition out : ndarray := of_rows 2 1 [[2.5]; [0.3125]]%float.
Definition net1 : MLP := snd (forward env X net).
Definition net2 : MLP := snd (backward env X y net1).

(** The network built on the sample generator left in state [g]. *)
Definition built (rate : float) (act : string) (g : nat) : MLP :=
  match fst (MLP_init env 2 3 1 rate act g) with
  | Returned n => n
  | Raised _ => net
  end.

End Sample.

(* ================================================================== *)
(** * The script around the class *)
(* ================================================================== *)

(** [A[:, j]], a 1-D array. *)
Definition column (A : ndarray) (j : nat) : list float :=
  map (fun i => get A i j) (seq 0 (nrows A)).

(** The float64 an int64 entry converts to when it meets a float array. *)
Definition float_of_int (k : Z) : float :=
  if (k <? 0)%Z
  then (- PrimFloat.of_uint63 (Uint63.of_Z (- k)))%float
  else PrimFloat.of_uint63 (Uint63.of_Z k).

(** [v.reshape(-1, 1)] for a 1-D int array [v]: one entry per row.  The
    entries are stored as the floats they convert to in [self.a2 - y]. *)
Definition reshape_column (v : list Z) : ndarray :=
  mk_ndarray (List.length v) 1 (map (fun k => [float_of_int k]) v).

(** generate_data (lines 76-82): the generator is reset to seed 0, the
    points are drawn, and a point is labelled 1 when its squared distance
    to the origin exceeds 1, and -1 otherwise. *)
Definition generate_data (E : NumpyEnv) (n_samples : nat) (g : rng_state E)
  : (ndarray * ndarray) * rng_state E :=
  let g0 := seed E 0 in
  let '(X, g1) := randn E n_samples 2 g0 in
  let sq0 := map (fun v => (v * v)%float) (column X 0) in
  let sq1 := map (fun v => (v * v)%float) (column X 1) in
  let r2 := map (fun p => (fst p + snd p)%float) (combine sq0 sq1) in
  let outside := map (fun v => (1 <? v)%float) r2 in
  let as_int := map (fun b : bool => if b then 1%Z else 0%Z) outside in
  let y := map (fun k => (k * 2 - 1)%Z) as_int in
  ((X, reshape_column y), g1).

(** The training loop of [update] (lines 91-93):
    [for _ in range(n): mlp.forward(X); mlp.backward(X, y)].  An exception
    leaves the loop. *)
Fixpoint training_steps (E : NumpyEnv) (n : nat) (X y : ndarray) : method unit :=
  match n with
  | 0 => ret tt
  | S k => forward E X ;;; backward E X y ;;; training_steps E k X y
  end.

(** A generator that hands out one stream of numbers: [randn r c] fills
    its array row by row with the next [r * c] numbers of the stream.
    numpy's generator is of this kind. *)
Definition sequential_generator (E : NumpyEnv) : Prop :=
  exists (draw : rng_state E -> float) (next : rng_state E -> rng_state E),
    forall r c g,
      randn E r c g
      = (tabulate r c (fun i j => draw (Nat.iter (i * c + j) next g)),
         Nat.iter (r * c) next g).

(** The array of [N] rows that repeats the first row of [y]. *)
Definition repeat_row (N : nat) (y : ndarray) : ndarray :=
  tabulate N (ncols y) (fun _ j => get y 0 j).

(** Further sample arrays: a batch with three columns, and an empty
    batch with its empty labels. *)
Module SampleEdge.

Definition X_three_cols : ndarray :=
  Sample.of_rows 2 3 [[1; 2; 3]; [0.5; -1; 4]]%float.

Definition X_empty : ndarray := Sample.of_rows 0 2 [].
Definition y_empty : ndarray := Sample.of_rows 0 1 [].

(** The data of the script on the sample generator, four points. *)
Definition data : ndarray * ndarray := fst (generate_data Sample.env 4 11).

End SampleEdge.

(* ================================================================== *)
(** * Proof automation *)
(* ================================================================== *)

(** Splits on the outcome of the next numpy call or attribute lookup. *)
Ltac next_call :=
  match goal with
  | |- context [match ?o with Returned _ => _ | Raised _ => _ end] =>
      destruct o eqn:?
  | |- context [match ?o with Some _ => _ | None => _ end] =>
      destruct o eqn:?
  end.

Ltac run_method :=
  unfold bind, getattr, lift, getattr_opt, modify;
  repeat (next_call; cbn [fst snd]).

(* ================================================================== *)
(** * Facts about the numpy fragment *)
(* ================================================================== *)

Module NumpyFacts.

Lemma nth_tab (A : Type) (F : nat -> A) (n i : nat) (d : A) :
  i < n -> nth i (map F (seq 0 n)) d = F i.
Proof.
  intros Hi.
  rewrite (nth_indep _ d (F 0)) by (rewrite length_map, length_seq; exact Hi).
  rewrite map_nth, seq_nth by exact Hi. reflexivity.
Qed.

Lemma get_tabulate r c f i j :
  i < r -> j < c -> get (tabulate r c f) i j = f i j.
Proof.
  intros Hi Hj. unfold get, tabulate; cbn [cells].
  rewrite nth_tab by exact Hi. apply nth_tab; exact Hj.
Qed.

Lemma tabulate_ext r c f g :
  (forall i j, i < r -> j < c -> f i j = g i j) ->
  tabulate r c f = tabulate r c g.
Proof.
  intros H. unfold tabulate. f_equal.
  apply map_ext_in. intros i Hi. apply in_seq in Hi.
  apply map_ext_in. intros j Hj. apply in_seq in Hj.
  apply H; lia.
Qed.

Lemma wf_tabulate r c f : wf (tabulate r c f) = true.
Proof.
  unfold wf, tabulate; cbn [cells nrows ncols].
  rewrite length_map, length_seq, Nat.eqb_refl. cbn [andb].
  apply forallb_forall. intros row Hrow.
  apply in_map_iff in Hrow. destruct Hrow as [i [<- _]].
  rewrite length_map, length_seq. apply Nat.eqb_refl.
Qed.

Lemma fsum_ext n f g :
  (forall k, k < n -> f k = g k) -> fsum n f = fsum n g.
Proof.
  unfold fsum. generalize 0%float as acc.
  assert (H0 : forall k, In k (seq 0 n) -> k < n) by (intros k Hk; apply in_seq in Hk; lia).
  revert H0. generalize (seq 0 n) as l.
  induction l as [|x l IH]; intros Hl acc H; cbn [fold_left].
  - reflexivity.
  - rewrite (H x) by (apply Hl; left; reflexivity).
    apply IH; [intros k Hk; apply Hl; right; exact Hk | exact H].
Qed.

Lemma broadcast_dim_same n : broadcast_dim n n = Some n.
Proof. unfold broadcast_dim. rewrite Nat.eqb_refl. reflexivity. Qed.

Lemma broadcast_dim_one_r n : broadcast_dim n 1 = Some n.
Proof.
  unfold broadcast_dim.
  destruct (n =? 1) eqn:Heq; reflexivity.
Qed.

Lemma broadcast_dim_one_l n : broadcast_dim 1 n = Some n.
Proof.
  unfold broadcast_dim.
  destruct (1 =? n) eqn:Heq; [apply Nat.eqb_eq in Heq; subst; reflexivity|].
  reflexivity.
Qed.

(** Two sizes that are different and both different from 1 do not
    broadcast. *)
Lemma broadcast_dim_none a b :
  a <> b -> a <> 1 -> b <> 1 -> broadcast_dim a b = None.
Proof.
  intros Hab Ha Hb. unfold broadcast_dim.
  apply Nat.eqb_neq in Hab, Ha, Hb. rewrite Hab, Ha, Hb. reflexivity.
Qed.

(** The size of a broadcast dimension is one of the two sizes. *)
Lemma broadcast_dim_some a b r :
  broadcast_dim a b = Some r ->
  (a = b /\ r = a) \/ (a = 1 /\ r = b) \/ (b = 1 /\ r = a).
Proof.
  unfold broadcast_dim.
  destruct (a =? b) eqn:E1.
  { apply Nat.eqb_eq in E1. intros [= <-]. left. split; [exact E1 | reflexivity]. }
  destruct (a =? 1) eqn:E2.
  { apply Nat.eqb_eq in E2. intros [= <-]. right; left. split; [exact E2 | reflexivity]. }
  destruct (b =? 1) eqn:E3.
  { apply Nat.eqb_eq in E3. intros [= <-]. right; right. split; [exact E3 | reflexivity]. }
  discriminate.
Qed.

Lemma bidx_lt n i : i < n -> bidx n i = i.
Proof.
  intros Hi. unfold bidx. destruct (n =? 1) eqn:Heq; [|reflexivity].
  apply Nat.eqb_eq in Heq. lia.
Qed.

Lemma bidx_one i : bidx 1 i = 0.
Proof. reflexivity. Qed.

Lemma np_dot_ok (E : NumpyEnv) A B :
  ncols A = nrows B ->
  np_dot E A B = Returned (tabulate (nrows A) (ncols B) (dot_at E A B)).
Proof.
  intros H. unfold np_dot. rewrite H, Nat.eqb_refl. reflexivity.
Qed.

Lemma np_dot_raises (E : NumpyEnv) A B :
  ncols A <> nrows B -> np_dot E A B = Raised (ValueError "shapes not aligned").
Proof.
  intros H. unfold np_dot. apply Nat.eqb_neq in H. rewrite H. reflexivity.
Qed.

(** Two arrays of one shape: the operator is applied entry by entry. *)
Lemma np_binop_same op A B :
  nrows A = nrows B -> ncols A = ncols B ->
  np_binop op A B =
  Returned (tabulate (nrows A) (ncols A) (fun i j => op (get A i j) (get B i j))).
Proof.
  intros Hr Hc. unfold np_binop.
  rewrite <- Hr, <- Hc, !broadcast_dim_same.
  f_equal. apply tabulate_ext. intros i j Hi Hj.
  unfold bget. rewrite <- Hr, <- Hc, !bidx_lt by assumption. reflexivity.
Qed.

(** A row vector on the right is repeated over the rows. *)
Lemma np_binop_row op A B :
  nrows B = 1 -> ncols A = ncols B ->
  np_binop op A B =
  Returned (tabulate (nrows A) (ncols A) (fun i j => op (get A i j) (get B 0 j))).
Proof.
  intros Hr Hc. unfold np_binop.
  rewrite Hr, <- Hc, broadcast_dim_one_r, broadcast_dim_same.
  f_equal. apply tabulate_ext. intros i j Hi Hj.
  unfold bget. rewrite Hr, <- Hc, bidx_one.
  destruct (Nat.eq_dec (nrows A) 1) as [Heq|Heq].
  - rewrite Heq in *. replace i with 0 by lia. rewrite bidx_one, bidx_lt by assumption. reflexivity.
  - rewrite !bidx_lt by assumption. reflexivity.
Qed.

Lemma nrows_tabulate r c f : nrows (tabulate r c f) = r.
Proof. reflexivity. Qed.

Lemma ncols_tabulate r c f : ncols (tabulate r c f) = c.
Proof. reflexivity. Qed.

Lemma get_transpose A i j :
  i < ncols A -> j < nrows A -> get (transpose A) i j = get A j i.
Proof.
  intros Hi Hj. unfold transpose.
  rewrite get_tabulate by assumption. reflexivity.
Qed.

Lemma get_amap f A i j :
  i < nrows A -> j < ncols A -> get (amap f A) i j = f (get A i j).
Proof.
  intros Hi Hj. unfold amap.
  rewrite get_tabulate by assumption. reflexivity.
Qed.

(** Two ufuncs in a row are one pass with the composed function. *)
Lemma amap_amap f g A : amap f (amap g A) = amap (fun v => f (g v)) A.
Proof.
  unfold amap at 1 3. cbn [nrows ncols amap tabulate].
  apply tabulate_ext. intros i j Hi Hj.
  rewrite get_amap by assumption. reflexivity.
Qed.

Lemma amap_ext f g A : (forall v, f v = g v) -> amap f A = amap g A.
Proof. intros H. unfold amap. apply tabulate_ext. intros; apply H. Qed.

End NumpyFacts.
Import NumpyFacts.

(* ================================================================== *)
(** * The methods compute the formulas of the design *)
(* ================================================================== *)

Lemma shape_inv A r c : shape A = (r, c) -> nrows A = r /\ ncols A = c.
Proof. unfold shape. intros [= H1 H2]. split; assumption. Qed.

Lemma shape_amap f A : shape (amap f A) = shape A.
Proof. reflexivity. Qed.

(** [np.dot(X, W) + b] is the affine map of the design. *)
Lemma affine_refines (E : NumpyEnv) X W b :
  ncols X = nrows W -> shape b = (1, ncols W) ->
  exists D, np_dot E X W = Returned D /\ np_add D b = Returned (Design.affine E X W b).
Proof.
  intros HX Hb. apply shape_inv in Hb. destruct Hb as [Hb1 Hb2].
  eexists. split; [apply np_dot_ok; exact HX|].
  unfold np_add. rewrite np_binop_row by (cbn [nrows ncols tabulate]; congruence).
  f_equal. unfold Design.affine. cbn [nrows ncols tabulate].
  apply tabulate_ext. intros i j Hi Hj.
  rewrite get_tabulate by assumption. reflexivity.
Qed.

Lemma forward_returns (E : NumpyEnv) input_dim hidden_dim output_dim s X :
  network_ok input_dim hidden_dim output_dim s ->
  ncols X = input_dim ->
  let Z1 := Design.affine E X (W1 s) (b1 s) in
  let A1 := activation s Z1 in
  let Z2 := Design.affine E A1 (W2 s) (b2 s) in
  let A2 := activation s Z2 in
  forward E X s = (Returned A2, after_forward s Z1 A1 Z2 A2).
Proof.
  intros [[HW1 [Hb1 [HW2 Hb2]]] [Hact _]] HX Z1 A1 Z2 A2.
  apply shape_inv in HW1, HW2. destruct HW1 as [HW1r HW1c], HW2 as [HW2r HW2c].
  destruct (@affine_refines E X (W1 s) (b1 s)) as [D1 [HD1 HS1]];
    [congruence | rewrite HW1c; exact Hb1 |].
  assert (HA1 : ncols A1 = nrows (W2 s)).
  { pose proof (Hact Z1) as H. apply shape_inv in H. destruct H as [_ H].
    unfold A1. rewrite H. unfold Z1, Design.affine. cbn [ncols tabulate]. congruence. }
  destruct (@affine_refines E A1 (W2 s) (b2 s)) as [D2 [HD2 HS2]];
    [exact HA1 | rewrite HW2c; exact Hb2 |].
  unfold forward, bind, getattr, lift, getattr_opt, modify.
  rewrite HD1, HS1. cbn [z1 a1 z2 a2 set_z1 set_a1 set_z2 set_a2 activation W2 b2 W1 b1].
  fold Z1. fold A1. rewrite HD2, HS2.
  cbn [z1 a1 z2 a2 set_z1 set_a1 set_z2 set_a2 activation W2 b2 W1 b1].
  reflexivity.
Qed.

(** [self.a2 - y] on labels of the shape of [a2]. *)
Lemma delta2_refines A2 y :
  shape y = shape A2 -> np_sub A2 y = Returned (Design.delta2 A2 y).
Proof.
  intros H. apply shape_inv in H. destruct H as [Hr Hc].
  unfold np_sub. apply np_binop_same; congruence.
Qed.

(** [np.dot(A.T, D) / m] *)
Lemma weight_grad_refines (E : NumpyEnv) A D m :
  nrows A = nrows D ->
  exists P, np_dot E (transpose A) D = Returned P /\
            div_int P m = Design.weight_grad E A D m.
Proof.
  intros H. eexists. split; [apply np_dot_ok; exact H|].
  unfold div_int, amap, Design.weight_grad. cbn [nrows ncols tabulate transpose].
  apply tabulate_ext. intros i j Hi Hj.
  rewrite get_tabulate by assumption. reflexivity.
Qed.

(** [np.sum(D, axis=0, keepdims=True) / m] *)
Lemma bias_grad_refines (E : NumpyEnv) D m :
  div_int (np_sum_axis0 E D) m = Design.bias_grad E D m.
Proof.
  unfold div_int, amap, Design.bias_grad, np_sum_axis0. cbn [nrows ncols tabulate].
  apply tabulate_ext. intros i j Hi Hj.
  rewrite get_tabulate by assumption. reflexivity.
Qed.

(** [np.dot(D2, W.T) * P] *)
Lemma delta1_refines (E : NumpyEnv) D2 W P :
  ncols D2 = ncols W -> shape P = (nrows D2, nrows W) ->
  exists B, np_dot E D2 (transpose W) = Returned B /\
            np_mul B P = Returned (Design.delta1 E D2 W P).
Proof.
  intros HD HP. apply shape_inv in HP. destruct HP as [HPr HPc].
  eexists. split; [apply np_dot_ok; exact HD|].
  unfold np_mul. rewrite np_binop_same by (cbn [nrows ncols tabulate transpose]; congruence).
  f_equal. unfold Design.delta1. cbn [nrows ncols tabulate transpose].
  apply tabulate_ext. intros i j Hi Hj.
  rewrite get_tabulate by assumption. reflexivity.
Qed.

(** [P -= rate * dP] for a gradient of the shape of the parameter. *)
Lemma descent_refines rate P dP :
  shape dP = shape P ->
  np_isub P (scalar_mul rate dP) = Returned (Design.descent rate P dP).
Proof.
  intros H. apply shape_inv in H. destruct H as [Hr Hc].
  unfold np_isub, np_sub.
  rewrite np_binop_same by (cbn [nrows ncols tabulate scalar_mul amap]; congruence).
  cbn [nrows ncols tabulate]. rewrite !Nat.eqb_refl. cbn [andb].
  f_equal. unfold Design.descent. apply tabulate_ext. intros i j Hi Hj.
  unfold scalar_mul. rewrite get_amap by congruence. reflexivity.
Qed.

Lemma shape_weight_grad (E : NumpyEnv) A D m : shape (Design.weight_grad E A D m) = (ncols A, ncols D).
Proof. reflexivity. Qed.

Lemma shape_bias_grad (E : NumpyEnv) D m : shape (Design.bias_grad E D m) = (1, ncols D).
Proof. reflexivity. Qed.

(** [backward] on a cache of the right shape: it returns, stores the
    gradients of the design and applies the four descent steps. *)
Lemma backward_returns (E : NumpyEnv) input_dim hidden_dim output_dim N s X y Z1 A1 A2 :
  network_ok input_dim hidden_dim output_dim s ->
  z1 s = Some Z1 -> a1 s = Some A1 -> a2 s = Some A2 ->
  shape Z1 = (N, hidden_dim) -> shape A1 = (N, hidden_dim) ->
  shape A2 = (N, output_dim) ->
  shape X = (N, input_dim) -> shape y = (N, output_dim) ->
  backward E X y s
  = (Returned tt, after_backward s (design_gradients E s X y Z1 A1 A2)).
Proof.
  intros [[HW1 [Hb1 [HW2 Hb2]]] [_ Hact']] Hz1 Ha1 Ha2 HZ1 HA1 HA2 HX Hy.
  pose proof (Hact' Z1) as HP. rewrite HZ1 in HP.
  pose proof HW2 as HW2'. apply shape_inv in HW2'. destruct HW2' as [HW2r HW2c].
  pose proof HA2 as HA2'. apply shape_inv in HA2'. destruct HA2' as [HA2r HA2c].
  pose proof HA1 as HA1'. apply shape_inv in HA1'. destruct HA1' as [HA1r HA1c].
  pose proof HX as HX'. apply shape_inv in HX'. destruct HX' as [HXr HXc].
  set (d2 := Design.delta2 A2 y).
  set (d1 := Design.delta1 E d2 (W2 s) (activation_prime s Z1)).
  assert (Hd2 : np_sub A2 y = Returned d2) by (apply delta2_refines; congruence).
  destruct (@weight_grad_refines E A1 d2 (nrows X)) as [P2 [HP2 HG2]].
  { unfold d2, Design.delta2. cbn [nrows tabulate]. congruence. }
  destruct (@delta1_refines E d2 (W2 s) (activation_prime s Z1)) as [B [HB HD1]].
  { unfold d2, Design.delta2. cbn [ncols tabulate]. congruence. }
  { unfold d2, Design.delta2. cbn [nrows tabulate]. congruence. }
  fold d1 in HD1.
  destruct (@weight_grad_refines E X d1 (nrows X)) as [P1 [HP1 HG1]].
  { unfold d1, Design.delta1, d2, Design.delta2. cbn [nrows tabulate]. congruence. }
  unfold backward, bind, getattr, lift, getattr_opt, modify.
  rewrite Ha2, Hd2, Ha1, HP2, HB, Hz1, HD1, HP1.
  rewrite HG2, HG1, !bias_grad_refines.
  rewrite descent_refines
    by (rewrite shape_weight_grad, HW2; unfold d2, Design.delta2;
        cbn [ncols tabulate]; congruence).
  cbn [b2 lr set_W2].
  rewrite descent_refines
    by (rewrite shape_bias_grad, Hb2; unfold d2, Design.delta2;
        cbn [ncols tabulate]; congruence).
  cbn [W1 lr set_W2 set_b2].
  rewrite descent_refines
    by (rewrite shape_weight_grad, HW1; unfold d1, Design.delta1;
        cbn [ncols tabulate]; congruence).
  cbn [b1 lr set_W2 set_b2 set_W1].
  rewrite descent_refines
    by (rewrite shape_bias_grad, Hb1; unfold d1, Design.delta1;
        cbn [ncols tabulate]; congruence).
  reflexivity.
Qed.

(* ================================================================== *)
(** * forward *)
(* ================================================================== *)

(** C2. For a well-shaped network and a batch [X] of shape [N x input_dim]
    with [N >= 1], [forward X] returns; it computes [Z1 = X.W1 + b1] with
    the bias added to every row, [A1 = phi(Z1)], [Z2 = A1.W2 + b2] and
    [A2 = phi(Z2)] with the same activation [phi] at both layers, caches
    the four tensors and returns [A2].  The two matrix products are those
    of [np.dot], whatever way the library accumulates them. *)
Theorem forward_computes (E : NumpyEnv) input_dim hidden_dim output_dim N s X :
  network_ok input_dim hidden_dim output_dim s ->
  shape X = (N, input_dim) ->
  1 <= N ->
  let phi := activation s in
  let Z1 := Design.affine E X (W1 s) (b1 s) in
  let A1 := phi Z1 in
  let Z2 := Design.affine E A1 (W2 s) (b2 s) in
  let A2 := phi Z2 in
  exists s',
    forward E X s = (Returned A2, s') /\
    z1 s' = Some Z1 /\ a1 s' = Some A1 /\ z2 s' = Some Z2 /\ a2 s' = Some A2.
Proof.
  intros Hok HX _ phi Z1 A1 Z2 A2.
  apply shape_inv in HX. destruct HX as [_ HXc].
  exists (after_forward s Z1 A1 Z2 A2). split.
  - exact (@forward_returns E _ _ _ s X Hok HXc).
  - repeat split; reflexivity.
Qed.

Lemma sample_net_ok : network_ok 2 3 1 Sample.net.
Proof.
  split; [repeat split | split; intro Z; reflexivity].
Defined.

Lemma forward_computes_witness :
  exists s',
    forward Sample.env Sample.X Sample.net
    = (Returned (relu (Design.affine Sample.env
                        (relu (Design.affine Sample.env Sample.X Sample.w1 (np_zeros 1 3)))
                        Sample.w2 (np_zeros 1 1))), s') /\
    z1 s' = Some (Design.affine Sample.env Sample.X Sample.w1 (np_zeros 1 3)) /\
    a1 s' = Some (relu (Design.affine Sample.env Sample.X Sample.w1 (np_zeros 1 3))) /\
    z2 s' = Some (Design.affine Sample.env
                    (relu (Design.affine Sample.env Sample.X Sample.w1 (np_zeros 1 3)))
                    Sample.w2 (np_zeros 1 1)) /\
    a2 s' = Some (relu (Design.affine Sample.env
                    (relu (Design.affine Sample.env Sample.X Sample.w1 (np_zeros 1 3)))
                    Sample.w2 (np_zeros 1 1))).
Proof.
  apply (@forward_computes Sample.env 2 3 1 2 Sample.net Sample.X sample_net_ok).
  - reflexivity.
  - lia.
Defined.

(** On the sample batch and environment the two outputs are 2.5 and
    0.3125. *)
Example forward_sample_value :
  fst (forward Sample.env Sample.X Sample.net)
  = Returned (Sample.of_rows 2 1 [[2.5]; [0.3125]]%float).
Proof. vm_compute. reflexivity. Qed.

(** The shapes of the cache after [forward]. *)
Lemma forward_cache_shapes (E : NumpyEnv) input_dim hidden_dim output_dim N s X :
  network_ok input_dim hidden_dim output_dim s ->
  shape X = (N, input_dim) ->
  let Z1 := Design.affine E X (W1 s) (b1 s) in
  let A1 := activation s Z1 in
  let Z2 := Design.affine E A1 (W2 s) (b2 s) in
  let A2 := activation s Z2 in
  shape Z1 = (N, hidden_dim) /\ shape A1 = (N, hidden_dim) /\
  shape Z2 = (N, output_dim) /\ shape A2 = (N, output_dim).
Proof.
  intros [[HW1 [_ [HW2 _]]] [Hact _]] HX Z1 A1 Z2 A2.
  apply shape_inv in HW1, HW2, HX.
  destruct HW1 as [_ HW1c], HW2 as [_ HW2c], HX as [HXr _].
  assert (HZ1 : shape Z1 = (N, hidden_dim)).
  { unfold Z1, Design.affine, shape. cbn [nrows ncols tabulate]. congruence. }
  assert (HA1 : shape A1 = (N, hidden_dim)).
  { unfold A1. rewrite Hact. exact HZ1. }
  assert (HZ2 : shape Z2 = (N, output_dim)).
  { apply shape_inv in HA1. destruct HA1 as [HA1r _].
    unfold Z2, Design.affine, shape. cbn [nrows ncols tabulate]. congruence. }
  repeat split; try assumption.
  unfold A2. rewrite Hact. exact HZ2.
Qed.

(** Assigning the cache keeps a network well shaped. *)
Lemma network_ok_after_forward input_dim hidden_dim output_dim s Z1 A1 Z2 A2 :
  network_ok input_dim hidden_dim output_dim s ->
  network_ok input_dim hidden_dim output_dim (after_forward s Z1 A1 Z2 A2).
Proof. intros H. exact H. Qed.

(** One training step, [forward] then [backward] on the same batch:
    both calls return, and the objects after each call are known. *)
Lemma step_returns (E : NumpyEnv) input_dim hidden_dim output_dim N s0 X y :
  network_ok input_dim hidden_dim output_dim s0 ->
  shape X = (N, input_dim) ->
  shape y = (N, output_dim) ->
  let Z1 := Design.affine E X (W1 s0) (b1 s0) in
  let A1 := activation s0 Z1 in
  let Z2 := Design.affine E A1 (W2 s0) (b2 s0) in
  let A2 := activation s0 Z2 in
  let s1 := after_forward s0 Z1 A1 Z2 A2 in
  forward E X s0 = (Returned A2, s1) /\
  backward E X y s1
  = (Returned tt, after_backward s1 (design_gradients E s1 X y Z1 A1 A2)).
Proof.
  intros Hok HX Hy Z1 A1 Z2 A2 s1.
  pose proof (forward_cache_shapes E Hok HX) as [HZ1 [HA1 [_ HA2]]].
  pose proof HX as HX'. apply shape_inv in HX'. destruct HX' as [HXr HXc].
  split; [exact (@forward_returns E _ _ _ s0 X Hok HXc)|].
  apply (@backward_returns E input_dim hidden_dim output_dim N s1 X y Z1 A1 A2);
    try assumption; try reflexivity.
Qed.

(* ================================================================== *)
(** * backward *)
(* ================================================================== *)

(** C1. For a well-shaped network, a batch [X] of shape [N x input_dim]
    and labels [y] of shape [N x output_dim]: [forward X] returns and
    caches [Z1], [A1], [A2]; the following [backward X y] returns and the
    gradients it stores are [dW2 = A1^T.delta2 / N],
    [db2 = colsum(delta2) / N], [dW1 = X^T.delta1 / N],
    [db1 = colsum(delta1) / N], where [delta2 = A2 - y] (no derivative of
    the output activation) and [delta1 = (delta2.W2^T) (.) phi'(Z1)], with
    [W2] the weight before the update.  The matrix products and the
    columnwise sums are those of [np.dot] and [np.sum], whatever way the
    library accumulates them. *)
Theorem backward_gradients (E : NumpyEnv) input_dim hidden_dim output_dim N s0 X y :
  network_ok input_dim hidden_dim output_dim s0 ->
  shape X = (N, input_dim) ->
  shape y = (N, output_dim) ->
  exists Z1 A1 A2 s1 s2,
    forward E X s0 = (Returned A2, s1) /\
    z1 s1 = Some Z1 /\ a1 s1 = Some A1 /\ a2 s1 = Some A2 /\
    backward E X y s1 = (Returned tt, s2) /\
    let delta2 := Design.delta2 A2 y in
    let delta1 := Design.delta1 E delta2 (W2 s1) (activation_prime s1 Z1) in
    gradients s2 =
    Some {| dW1 := Design.weight_grad E X delta1 N;
            db1 := Design.bias_grad E delta1 N;
            dW2 := Design.weight_grad E A1 delta2 N;
            db2 := Design.bias_grad E delta2 N |}.
Proof.
  intros Hok HX Hy.
  destruct (step_returns E Hok HX Hy) as [Hf Hb].
  pose proof HX as HX'. apply shape_inv in HX'. destruct HX' as [HXr _].
  do 5 eexists.
  split; [exact Hf|].
  do 3 (split; [reflexivity|]).
  split; [exact Hb|].
  cbn zeta. unfold after_backward, design_gradients.
  cbn [gradients set_gradients]. rewrite HXr. reflexivity.
Qed.

Lemma backward_gradients_witness :
  exists Z1 A1 A2 s1 s2,
    forward Sample.env Sample.X Sample.net = (Returned A2, s1) /\
    z1 s1 = Some Z1 /\ a1 s1 = Some A1 /\ a2 s1 = Some A2 /\
    backward Sample.env Sample.X Sample.y s1 = (Returned tt, s2) /\
    let delta2 := Design.delta2 A2 Sample.y in
    let delta1 := Design.delta1 Sample.env delta2 (W2 s1) (activation_prime s1 Z1) in
    gradients s2 =
    Some {| dW1 := Design.weight_grad Sample.env Sample.X delta1 2;
            db1 := Design.bias_grad Sample.env delta1 2;
            dW2 := Design.weight_grad Sample.env A1 delta2 2;
            db2 := Design.bias_grad Sample.env delta2 2 |}.
Proof.
  apply (@backward_gradients Sample.env 2 3 1 2 Sample.net Sample.X Sample.y sample_net_ok).
  - reflexivity.
  - reflexivity.
Defined.

(** The gradients of the sample step on the sample environment, as numbers:
    [delta2 = [[1.5], [1.3125]]]. *)
Example backward_sample_gradients :
  option_map (fun g => (dW2 g, db2 g, db1 g))
    (gradients (snd (backward Sample.env Sample.X Sample.y
                       (snd (forward Sample.env Sample.X Sample.net)))))
  = Some (Sample.of_rows 3 1 [[1.875]; [0]; [0.41015625]]%float,
          Sample.of_rows 1 1 [[1.40625]]%float,
          Sample.of_rows 1 3 [[0.75; 0; 0.328125]]%float).
Proof. vm_compute. reflexivity. Qed.

(** C7. For all dimensions and every [N >= 1], [forward] on a batch of
    shape [N x input_dim] returns an array of shape [N x output_dim], and
    the four gradients stored by the following [backward] have the shapes
    of [W1], [b1], [W2] and [b2]. *)
Theorem shapes_invariant (E : NumpyEnv) input_dim hidden_dim output_dim N s0 X y :
  network_ok input_dim hidden_dim output_dim s0 ->
  shape X = (N, input_dim) ->
  shape y = (N, output_dim) ->
  1 <= N ->
  exists A2 s1 s2 g,
    forward E X s0 = (Returned A2, s1) /\
    shape A2 = (N, output_dim) /\
    backward E X y s1 = (Returned tt, s2) /\
    gradients s2 = Some g /\
    shape (dW1 g) = shape (W1 s2) /\ shape (db1 g) = shape (b1 s2) /\
    shape (dW2 g) = shape (W2 s2) /\ shape (db2 g) = shape (b2 s2) /\
    shape (W1 s2) = (input_dim, hidden_dim) /\
    shape (b1 s2) = (1, hidden_dim) /\
    shape (W2 s2) = (hidden_dim, output_dim) /\
    shape (b2 s2) = (1, output_dim).
Proof.
  intros Hok HX Hy _.
  destruct (step_returns E Hok HX Hy) as [Hf Hb].
  pose proof (forward_cache_shapes E Hok HX) as [HZ1 [HA1 [_ HA2]]].
  destruct Hok as [[HW1 [Hb1 [HW2 Hb2]]] _].
  apply shape_inv in HX, HA1, HA2, HW1, HW2, Hb1, Hb2.
  destruct HX as [_ HXc], HA1 as [_ HA1c], HA2 as [HA2r HA2c].
  destruct HW1 as [HW1r HW1c], HW2 as [HW2r HW2c].
  destruct Hb1 as [Hb1r Hb1c], Hb2 as [Hb2r Hb2c].
  do 4 eexists.
  split; [exact Hf|].
  split; [unfold shape; congruence|].
  split; [exact Hb|].
  split; [reflexivity|].
  unfold shape, design_gradients, after_backward, after_forward,
    Design.descent, Design.weight_grad, Design.bias_grad,
    Design.delta1, Design.delta2.
  cbn [dW1 db1 dW2 db2 W1 b1 W2 b2 nrows ncols tabulate
       set_gradients set_b1 set_W1 set_b2 set_W2 set_a2 set_z2 set_a1 set_z1].
  repeat split; congruence.
Qed.

Lemma shapes_invariant_witness :
  exists A2 s1 s2 g,
    forward Sample.env Sample.X Sample.net = (Returned A2, s1) /\
    shape A2 = (2, 1) /\
    backward Sample.env Sample.X Sample.y s1 = (Returned tt, s2) /\
    gradients s2 = Some g /\
    shape (dW1 g) = shape (W1 s2) /\ shape (db1 g) = shape (b1 s2) /\
    shape (dW2 g) = shape (W2 s2) /\ shape (db2 g) = shape (b2 s2) /\
    shape (W1 s2) = (2, 3) /\
    shape (b1 s2) = (1, 3) /\
    shape (W2 s2) = (3, 1) /\
    shape (b2 s2) = (1, 1).
Proof.
  apply (@shapes_invariant Sample.env 2 3 1 2 Sample.net Sample.X Sample.y sample_net_ok).
  - reflexivity.
  - reflexivity.
  - lia.
Defined.

(* ================================================================== *)
(** * What each method leaves untouched *)
(* ================================================================== *)

(** C8. [forward] assigns nothing but the cached tensors: whatever the
    batch and whether the call returns or raises, [W1], [b1], [W2], [b2]
    are the same after the call as before, and so are the learning rate,
    the activation pair and the stored gradients. *)
Theorem forward_frame (E : NumpyEnv) (X : ndarray) (s : MLP) :
  same_parameters s (snd (forward E X s)) /\
  same_settings s (snd (forward E X s)) /\
  gradients (snd (forward E X s)) = gradients s.
Proof.
  unfold forward, same_parameters, same_settings.
  run_method; repeat split; cbn; congruence.
Qed.

(** C10. [backward] does not assign the cache: whatever the arguments and
    whether the call returns or raises, [z1], [a1], [z2], [a2] are the same
    after the call as before, and so are the learning rate and the
    activation pair. *)
Theorem backward_frame (E : NumpyEnv) (X y : ndarray) (s : MLP) :
  same_cache s (snd (backward E X y s)) /\
  same_settings s (snd (backward E X y s)).
Proof.
  unfold backward, same_cache, same_settings.
  run_method; repeat split; cbn; congruence.
Qed.

(* ================================================================== *)
(** * The update rule *)
(* ================================================================== *)

Lemma np_dot_inv (E : NumpyEnv) A B R :
  np_dot E A B = Returned R ->
  ncols A = nrows B /\ nrows R = nrows A /\ ncols R = ncols B.
Proof.
  unfold np_dot. destruct (ncols A =? nrows B) eqn:Heq; [|discriminate].
  apply Nat.eqb_eq in Heq. intros [= <-]. repeat split. exact Heq.
Qed.

Lemma np_binop_inv op A B R :
  np_binop op A B = Returned R ->
  broadcast_dim (nrows A) (nrows B) = Some (nrows R) /\
  broadcast_dim (ncols A) (ncols B) = Some (ncols R).
Proof.
  unfold np_binop.
  destruct (broadcast_dim (nrows A) (nrows B)) as [r|]; [|discriminate].
  destruct (broadcast_dim (ncols A) (ncols B)) as [c|]; [|discriminate].
  intros [= <-]. split; reflexivity.
Qed.

(** Every exception of the numpy fragment is a [ValueError]. *)
Lemma np_dot_raised (E : NumpyEnv) A B e :
  np_dot E A B = Raised e -> exists msg, e = ValueError msg.
Proof.
  unfold np_dot. destruct (ncols A =? nrows B); [discriminate|].
  intros [= <-]. eexists; reflexivity.
Qed.

Lemma np_binop_raised op A B e :
  np_binop op A B = Raised e -> exists msg, e = ValueError msg.
Proof.
  unfold np_binop.
  destruct (broadcast_dim (nrows A) (nrows B));
    [destruct (broadcast_dim (ncols A) (ncols B))|];
    try discriminate; intros [= <-]; eexists; reflexivity.
Qed.

(** C3. After a [forward] and a [backward] that returns (whatever the
    labels it was given), each of the four parameters is its value before
    the call minus the learning rate times the gradient stored by the
    call, entry by entry and as float64 values; the four gradients have
    the shapes of their parameters.  The learning rate may be any float,
    positive or not. *)
Theorem descent_step (E : NumpyEnv) input_dim hidden_dim output_dim N s0 X y A s1 s2 :
  network_ok input_dim hidden_dim output_dim s0 ->
  shape X = (N, input_dim) ->
  forward E X s0 = (Returned A, s1) ->
  backward E X y s1 = (Returned tt, s2) ->
  exists g,
    gradients s2 = Some g /\
    W1 s2 = Design.descent (lr s1) (W1 s1) (dW1 g) /\
    b1 s2 = Design.descent (lr s1) (b1 s1) (db1 g) /\
    W2 s2 = Design.descent (lr s1) (W2 s1) (dW2 g) /\
    b2 s2 = Design.descent (lr s1) (b2 s1) (db2 g) /\
    shape (dW1 g) = shape (W1 s1) /\ shape (db1 g) = shape (b1 s1) /\
    shape (dW2 g) = shape (W2 s1) /\ shape (db2 g) = shape (b2 s1).
Proof.
  intros Hok HX Hf Hb.
  pose proof (forward_cache_shapes E Hok HX) as [HZ1 [HA1 [_ HA2]]].
  pose proof HX as HX'. apply shape_inv in HX'. destruct HX' as [HXr HXc].
  rewrite (@forward_returns E _ _ _ s0 X Hok HXc) in Hf.
  injection Hf as _ <-.
  destruct Hok as [[HW1 [Hb1 [HW2 Hb2]]] [_ Hact']].
  set (Z1 := Design.affine E X (W1 s0) (b1 s0)) in *.
  set (A1 := activation s0 Z1) in *.
  set (Z2 := Design.affine E A1 (W2 s0) (b2 s0)) in *.
  set (A2 := activation s0 Z2) in *.
  pose proof (Hact' Z1) as HP. rewrite HZ1 in HP.
  apply shape_inv in HZ1, HA1, HA2, HP.
  destruct HA1 as [HA1r HA1c], HA2 as [HA2r HA2c], HP as [HPr HPc].
  pose proof HW2 as HW2'. apply shape_inv in HW2'. destruct HW2' as [HW2r HW2c].
  unfold backward, bind, getattr, lift, getattr_opt, modify in Hb.
  cbn [a2 a1 z1 W2 after_forward set_a2 set_z2 set_a1 set_z1 activation_prime] in Hb.
  destruct (np_sub A2 y) as [d2|] eqn:Hd2; [|discriminate Hb].
  destruct (np_dot E (transpose A1) d2) as [P2|] eqn:HP2; [|discriminate Hb].
  destruct (np_dot E d2 (transpose (W2 s0))) as [B|] eqn:HB; [|discriminate Hb].
  destruct (np_mul B (activation_prime s0 Z1)) as [d1|] eqn:Hd1; [|discriminate Hb].
  destruct (np_dot E (transpose X) d1) as [P1|] eqn:HP1; [|discriminate Hb].
  apply np_dot_inv in HP2, HB, HP1. cbn [nrows ncols transpose tabulate] in HP2, HB, HP1.
  destruct HP2 as [E2 [P2r P2c]], HB as [EB [Br Bc]], HP1 as [E1 [P1r P1c]].
  apply np_binop_inv in Hd1. destruct Hd1 as [D1r D1c].
  rewrite Br, HPr, <- E2, HA1r, broadcast_dim_same in D1r.
  rewrite Bc, HPc, HW2r, broadcast_dim_same in D1c.
  injection D1r as D1r. injection D1c as D1c.
  cbn [lr W1 b1 W2 b2 set_W2 set_b2 set_W1 set_b1 after_forward
       set_a2 set_z2 set_a1 set_z1] in Hb.
  rewrite descent_refines in Hb
    by (unfold shape, div_int, amap; cbn [nrows ncols tabulate];
        apply shape_inv in HW2; destruct HW2; congruence).
  rewrite descent_refines in Hb
    by (unfold shape, div_int, amap, np_sum_axis0; cbn [nrows ncols tabulate];
        apply shape_inv in Hb2; destruct Hb2; congruence).
  rewrite descent_refines in Hb
    by (unfold shape, div_int, amap; cbn [nrows ncols tabulate];
        apply shape_inv in HW1; destruct HW1; congruence).
  rewrite descent_refines in Hb
    by (unfold shape, div_int, amap, np_sum_axis0; cbn [nrows ncols tabulate];
        apply shape_inv in Hb1; destruct Hb1; congruence).
  injection Hb as <-.
  eexists. split; [reflexivity|].
  cbn [dW1 db1 dW2 db2 lr W1 b1 W2 b2 set_gradients set_W2 set_b2 set_W1 set_b1
       after_forward set_a2 set_z2 set_a1 set_z1].
  do 4 (split; [reflexivity|]).
  apply shape_inv in HW1, Hb1, HW2, Hb2.
  destruct HW1, Hb1, HW2, Hb2.
  unfold shape, div_int, amap, np_sum_axis0; cbn [nrows ncols tabulate].
  repeat split; congruence.
Qed.

Lemma sample_forward : forward Sample.env Sample.X Sample.net = (Returned Sample.out, Sample.net1).
Proof. vm_compute. reflexivity. Defined.

Lemma sample_backward :
  backward Sample.env Sample.X Sample.y Sample.net1 = (Returned tt, Sample.net2).
Proof. vm_compute. reflexivity. Defined.

Lemma descent_step_witness :
  exists g,
    gradients Sample.net2 = Some g /\
    W1 Sample.net2 = Design.descent (lr Sample.net1) (W1 Sample.net1) (dW1 g) /\
    b1 Sample.net2 = Design.descent (lr Sample.net1) (b1 Sample.net1) (db1 g) /\
    W2 Sample.net2 = Design.descent (lr Sample.net1) (W2 Sample.net1) (dW2 g) /\
    b2 Sample.net2 = Design.descent (lr Sample.net1) (b2 Sample.net1) (db2 g) /\
    shape (dW1 g) = shape (W1 Sample.net1) /\
    shape (db1 g) = shape (b1 Sample.net1) /\
    shape (dW2 g) = shape (W2 Sample.net1) /\
    shape (db2 g) = shape (b2 Sample.net1).
Proof.
  apply (@descent_step Sample.env 2 3 1 2 Sample.net Sample.X Sample.y Sample.out
           Sample.net1 Sample.net2 sample_net_ok).
  - reflexivity.
  - exact sample_forward.
  - exact sample_backward.
Defined.

(** The sample step in numbers: [W2] goes from [[1], [-1], [0.5]] to
    [[0.0625], [-1], [0.294921875]] and [b2] from [[0]] to [[-0.703125]]. *)
Example descent_sample_values :
  W2 Sample.net2 = Sample.of_rows 3 1 [[0.0625]; [-1]; [0.294921875]]%float /\
  b2 Sample.net2 = Sample.of_rows 1 1 [[-0.703125]]%float.
Proof. vm_compute. split; reflexivity. Qed.

(* ================================================================== *)
(** * Arguments whose row count differs from the cached batch *)
(* ================================================================== *)

(** The class has no check of its own: a call fails only where a numpy
    operation rejects its operands.  A label array with a single row is
    accepted by [self.a2 - y], which repeats the row over the batch. *)

(** C4, as stated, fails: after [forward] on the two-row sample batch,
    [backward] with the one-row label array returns normally and changes
    [W2] and [b2]. *)
Lemma backward_one_row_labels_accepted :
  wf Sample.X = true /\ wf Sample.y_one_row = true /\
  nrows Sample.y_one_row <> nrows Sample.X /\
  forward Sample.env Sample.X Sample.net = (Returned Sample.out, Sample.net1) /\
  fst (backward Sample.env Sample.X Sample.y_one_row Sample.net1) = Returned tt /\
  W2 Sample.net1 = Sample.of_rows 3 1 [[1]; [-1]; [0.5]]%float /\
  W2 (snd (backward Sample.env Sample.X Sample.y_one_row Sample.net1))
  = Sample.of_rows 3 1 [[-1.1875]; [-1]; [0.294921875]]%float /\
  W2 (snd (backward Sample.env Sample.X Sample.y_one_row Sample.net1)) <> W2 Sample.net1 /\
  b2 (snd (backward Sample.env Sample.X Sample.y_one_row Sample.net1)) <> b2 Sample.net1.
Proof.
  split; [reflexivity|]. split; [reflexivity|].
  split; [cbn; lia|].
  split; [exact sample_forward|].
  split; [vm_compute; reflexivity|].
  split; [vm_compute; reflexivity|].
  split; [vm_compute; reflexivity|].
  split.
  - intros H.
    apply (f_equal (fun A => PrimFloat.eqb (get A 0 0) 1%float)) in H.
    vm_compute in H. discriminate H.
  - intros H.
    apply (f_equal (fun A => PrimFloat.eqb (get A 0 0) 0%float)) in H.
    vm_compute in H. discriminate H.
Qed.

(** C4, amended.  After [forward] on a batch of [N] rows, a call
    [backward X y] in which [X] does not have [N] rows, or [y] has neither
    [N] rows nor one row, raises a [ValueError] and leaves the object as
    it was: no parameter is modified. *)
Theorem backward_mismatch_raises (E : NumpyEnv) input_dim hidden_dim output_dim N s0 X0 A s1 X y :
  network_ok input_dim hidden_dim output_dim s0 ->
  shape X0 = (N, input_dim) ->
  forward E X0 s0 = (Returned A, s1) ->
  nrows X <> N \/ (nrows y <> N /\ nrows y <> 1) ->
  exists msg,
    backward E X y s1 = (Raised (ValueError msg), s1) /\
    same_parameters s1 (snd (backward E X y s1)).
Proof.
  intros Hok HX0 Hf Hmis.
  assert (Hgoal : exists msg, backward E X y s1 = (Raised (ValueError msg), s1)).
  2:{ destruct Hgoal as [msg Hb]. exists msg. split; [exact Hb|].
      rewrite Hb. repeat split; reflexivity. }
  pose proof (forward_cache_shapes E Hok HX0) as [HZ1 [HA1 [_ HA2]]].
  pose proof HX0 as HX'. apply shape_inv in HX'. destruct HX' as [_ HXc].
  rewrite (@forward_returns E _ _ _ s0 X0 Hok HXc) in Hf.
  injection Hf as _ <-.
  destruct Hok as [[HW1 [Hb1 [HW2 Hb2]]] [_ Hact']].
  set (Z1 := Design.affine E X0 (W1 s0) (b1 s0)) in *.
  set (A1 := activation s0 Z1) in *.
  set (Z2 := Design.affine E A1 (W2 s0) (b2 s0)) in *.
  set (A2 := activation s0 Z2) in *.
  set (s1 := after_forward s0 Z1 A1 Z2 A2).
  pose proof (Hact' Z1) as HP. rewrite HZ1 in HP.
  apply shape_inv in HA1, HA2, HP, HW2.
  destruct HA1 as [HA1r HA1c], HA2 as [HA2r HA2c], HP as [HPr HPc].
  destruct HW2 as [HW2r HW2c].
  unfold backward, bind, getattr, lift, getattr_opt, modify.
  cbn [a2 a1 z1 W2 s1 after_forward set_a2 set_z2 set_a1 set_z1 activation_prime].
  destruct (np_sub A2 y) as [d2|e] eqn:Hd2.
  2:{ apply np_binop_raised in Hd2. destruct Hd2 as [msg ->]. exists msg. reflexivity. }
  destruct (np_dot E (transpose A1) d2) as [P2|e] eqn:HP2.
  2:{ apply np_dot_raised in HP2. destruct HP2 as [msg ->]. exists msg. reflexivity. }
  destruct (np_dot E d2 (transpose (W2 s0))) as [B|e] eqn:HB.
  2:{ apply np_dot_raised in HB. destruct HB as [msg ->]. exists msg. reflexivity. }
  destruct (np_mul B (activation_prime s0 Z1)) as [d1|e] eqn:Hd1.
  2:{ apply np_binop_raised in Hd1. destruct Hd1 as [msg ->]. exists msg. reflexivity. }
  destruct (np_dot E (transpose X) d1) as [P1|e] eqn:HP1.
  2:{ apply np_dot_raised in HP1. destruct HP1 as [msg ->]. exists msg. reflexivity. }
  exfalso.
  apply np_dot_inv in HP2, HB, HP1. cbn [nrows ncols transpose tabulate] in HP2, HB, HP1.
  destruct HP2 as [E2 _], HB as [_ [Br Bc]], HP1 as [E1 _].
  apply np_binop_inv in Hd1, Hd2. destruct Hd1 as [D1r _], Hd2 as [D2r _].
  rewrite Br, HPr, <- E2, HA1r, broadcast_dim_same in D1r.
  injection D1r as D1r.
  destruct Hmis as [HXN | [HyN Hy1]].
  - congruence.
  - apply broadcast_dim_some in D2r.
    destruct D2r as [[Heq _] | [[Heq Heq'] | [Heq _]]]; congruence.
Qed.

Lemma backward_mismatch_raises_witness :
  exists msg,
    backward Sample.env Sample.X Sample.y_three_rows Sample.net1
    = (Raised (ValueError msg), Sample.net1) /\
    same_parameters Sample.net1
      (snd (backward Sample.env Sample.X Sample.y_three_rows Sample.net1)).
Proof.
  apply (@backward_mismatch_raises Sample.env 2 3 1 2 Sample.net Sample.X Sample.out
           Sample.net1 Sample.X Sample.y_three_rows sample_net_ok).
  - reflexivity.
  - exact sample_forward.
  - right. split; cbn; lia.
Defined.

(** A batch with a wrong row count is rejected only by the last product,
    [np.dot(X.T, delta1)]. *)
Example backward_three_row_batch :
  backward Sample.env Sample.X_three_rows Sample.y Sample.net1
  = (Raised (ValueError "shapes not aligned"), Sample.net1).
Proof. vm_compute. reflexivity. Qed.

(* ================================================================== *)
(** * The constructor *)
(* ================================================================== *)

(** The weights the constructor draws: the generator is reset to seed 0,
    then [W1] is drawn, then [W2]. *)
Lemma init_draws (E : NumpyEnv) input_dim hidden_dim output_dim rate act g :
  let d1 := randn E input_dim hidden_dim (seed E 0) in
  let d2 := randn E hidden_dim output_dim (snd d1) in
  MLP_init E input_dim hidden_dim output_dim rate act g =
  let self f f' :=
    mk_MLP rate act (fst d1) (np_zeros 1 hidden_dim) (fst d2)
           (np_zeros 1 output_dim) f f' None None None None None in
  if String.eqb act "tanh" then
    (Returned (self (np_tanh E) (tanh_prime E)), snd d2)
  else if String.eqb act "relu" then
    (Returned (self relu relu_prime), snd d2)
  else if String.eqb act "sigmoid" then
    (Returned (self (sigmoid E) (sigmoid_prime (sigmoid E))), snd d2)
  else (Raised (ValueError "Activation function not supported"), snd d2).
Proof.
  intros d1 d2. unfold MLP_init. fold d1.
  destruct d1 as [w1 g1] eqn:E1. cbn [fst snd] in *. fold d2.
  destruct d2 as [w2 g2]. reflexivity.
Qed.

Lemma get_np_zeros r c i j : i < r -> j < c -> get (np_zeros r c) i j = 0%float.
Proof.
  intros Hi Hj. unfold np_zeros. rewrite get_tabulate by assumption. reflexivity.
Qed.

(** C6. Construction with "tanh", "relu" or "sigmoid" returns a network
    whose biases [b1] and [b2] are all zero and whose weights [W1] and [W2]
    are the two arrays drawn from the generator; construction with any
    other activation name raises the [ValueError] of the constructor. *)
Theorem MLP_init_outcome (E : NumpyEnv) input_dim hidden_dim output_dim rate act g :
  let d1 := randn E input_dim hidden_dim (seed E 0) in
  let d2 := randn E hidden_dim output_dim (snd d1) in
  (In act ["tanh"; "relu"; "sigmoid"]%string ->
   exists net,
     MLP_init E input_dim hidden_dim output_dim rate act g = (Returned net, snd d2) /\
     W1 net = fst d1 /\ W2 net = fst d2 /\
     b1 net = np_zeros 1 hidden_dim /\ b2 net = np_zeros 1 output_dim /\
     (forall j, j < hidden_dim -> get (b1 net) 0 j = 0%float) /\
     (forall j, j < output_dim -> get (b2 net) 0 j = 0%float) /\
     lr net = rate /\ activation_fn net = act) /\
  (~ In act ["tanh"; "relu"; "sigmoid"]%string ->
   MLP_init E input_dim hidden_dim output_dim rate act g
   = (Raised (ValueError "Activation function not supported"), snd d2)).
Proof.
  intros d1 d2. rewrite init_draws. fold d1 d2. cbn zeta. split.
  - intros Hin.
    assert (Hz1 : forall j, j < hidden_dim -> get (np_zeros 1 hidden_dim) 0 j = 0%float)
      by (intros j Hj; apply get_np_zeros; [lia | exact Hj]).
    assert (Hz2 : forall j, j < output_dim -> get (np_zeros 1 output_dim) 0 j = 0%float)
      by (intros j Hj; apply get_np_zeros; [lia | exact Hj]).
    destruct Hin as [<- | [<- | [<- | []]]]; cbn [String.eqb Ascii.eqb Bool.eqb];
      eexists; (split; [reflexivity|]); cbn [W1 W2 b1 b2 lr activation_fn];
      repeat split; assumption.
  - intros Hout.
    destruct (String.eqb_spec act "tanh") as [->|_];
      [exfalso; apply Hout; cbn; tauto|].
    destruct (String.eqb_spec act "relu") as [->|_];
      [exfalso; apply Hout; cbn; tauto|].
    destruct (String.eqb_spec act "sigmoid") as [->|_];
      [exfalso; apply Hout; cbn; tauto|].
    reflexivity.
Qed.

Lemma MLP_init_outcome_witness :
  (exists net,
     MLP_init Sample.env 2 3 1 0.5%float "relu" 7
     = (Returned net, snd (randn Sample.env 3 1
                             (snd (randn Sample.env 2 3 (seed Sample.env 0))))) /\
     W1 net = fst (randn Sample.env 2 3 (seed Sample.env 0)) /\
     W2 net = fst (randn Sample.env 3 1
                     (snd (randn Sample.env 2 3 (seed Sample.env 0)))) /\
     b1 net = np_zeros 1 3 /\ b2 net = np_zeros 1 1 /\
     (forall j, j < 3 -> get (b1 net) 0 j = 0%float) /\
     (forall j, j < 1 -> get (b2 net) 0 j = 0%float) /\
     lr net = 0.5%float /\ activation_fn net = "relu"%string) /\
  MLP_init Sample.env 2 3 1 0.5%float "softmax" 7
  = (Raised (ValueError "Activation function not supported"),
     snd (randn Sample.env 3 1 (snd (randn Sample.env 2 3 (seed Sample.env 0))))).
Proof.
  split.
  - apply (proj1 (@MLP_init_outcome Sample.env 2 3 1 0.5%float "relu"%string 7)).
    cbn. tauto.
  - apply (proj2 (@MLP_init_outcome Sample.env 2 3 1 0.5%float "softmax"%string 7)).
    intros H. cbn in H. destruct H as [H | [H | [H | []]]]; discriminate H.
Defined.

(** An activation name outside the three, and a supported one, on the
    sample generator. *)
Example MLP_init_rejects_softmax :
  fst (MLP_init Sample.env 2 3 1 0.5%float "softmax" 7)
  = Raised (ValueError "Activation function not supported").
Proof. vm_compute. reflexivity. Qed.

Example MLP_init_accepts_relu :
  In "relu"%string ["tanh"; "relu"; "sigmoid"]%string /\
  option_map W1
    match fst (MLP_init Sample.env 2 3 1 0.5%float "relu" 7) with
    | Returned net => Some net
    | Raised _ => None
    end
  = Some (Sample.of_rows 2 3 [[0; 1; 2]; [3; 4; 5]]%float).
Proof. split; [cbn; tauto | vm_compute; reflexivity]. Qed.

(** C9. The constructor resets the generator to seed 0 before it draws:
    two networks built with the same three dimensions have the same [W1]
    and the same [W2], whatever the state of the generator before each
    construction, the learning rates and the activation names; the
    generator is left in the same state by both. *)
Theorem MLP_init_deterministic (E : NumpyEnv)
    input_dim hidden_dim output_dim rate rate' act act' g g' net net' h h' :
  MLP_init E input_dim hidden_dim output_dim rate act g = (Returned net, h) ->
  MLP_init E input_dim hidden_dim output_dim rate' act' g' = (Returned net', h') ->
  W1 net = W1 net' /\ W2 net = W2 net' /\
  b1 net = b1 net' /\ b2 net = b2 net' /\ h = h'.
Proof.
  rewrite !init_draws. cbn zeta.
  set (d1 := randn E input_dim hidden_dim (seed E 0)).
  set (d2 := randn E hidden_dim output_dim (snd d1)).
  intros H H'.
  destruct (String.eqb act "tanh"), (String.eqb act "relu"),
    (String.eqb act "sigmoid"); try discriminate H;
    injection H as <- <-;
    destruct (String.eqb act' "tanh"), (String.eqb act' "relu"),
      (String.eqb act' "sigmoid"); try discriminate H';
    injection H' as <- <-; repeat split; reflexivity.
Qed.

Lemma MLP_init_deterministic_witness :
  W1 (Sample.built 0.5 "relu" 7) = W1 (Sample.built 0.25 "tanh" 42) /\
  W2 (Sample.built 0.5 "relu" 7) = W2 (Sample.built 0.25 "tanh" 42) /\
  b1 (Sample.built 0.5 "relu" 7) = b1 (Sample.built 0.25 "tanh" 42) /\
  b2 (Sample.built 0.5 "relu" 7) = b2 (Sample.built 0.25 "tanh" 42) /\
  9 = 9.
Proof.
  apply (@MLP_init_deterministic Sample.env 2 3 1 0.5%float 0.25%float
           "relu"%string "tanh"%string 7 42).
  - vm_compute. reflexivity.
  - vm_compute. reflexivity.
Defined.

(* ================================================================== *)
(** * The activation table *)
(* ================================================================== *)

Lemma amap2_amap op f g A :
  amap2 op (amap f A) (amap g A) = amap (fun v => op (f v) (g v)) A.
Proof.
  unfold amap2. cbn [nrows ncols amap tabulate].
  unfold amap at 3. apply tabulate_ext. intros i j Hi Hj.
  fold (amap f A). fold (amap g A).
  rewrite !get_amap by assumption. reflexivity.
Qed.

Lemma maximum1_zero x : maximum1 0 x = Design.fmax 0 x.
Proof.
  unfold maximum1, Design.fmax.
  replace (PrimFloat.is_nan 0) with false by reflexivity.
  reflexivity.
Qed.

(** On every float that is a number, [max(0, x)] is the number [x] when
    [x > 0] and the number zero otherwise (a zero of either sign). *)
Lemma fmax_zero_cases x :
  PrimFloat.is_nan x = false ->
  (Design.fmax 0 x =? (if (0 <? x)%float then x else 0%float))%float = true.
Proof.
  unfold Design.fmax, PrimFloat.is_nan. intros Hnan.
  apply negb_false_iff in Hnan.
  destruct (x <? 0)%float eqn:Hlt; destruct (0 <? x)%float eqn:Hgt;
    try reflexivity; try exact Hnan.
  - rewrite FloatAxioms.ltb_spec in Hlt, Hgt.
    replace (Prim2SF 0) with (S754_zero false) in Hlt, Hgt by reflexivity.
    destruct (Prim2SF x) as [sg | sg | | sg m e]; cbn in Hlt, Hgt;
      try discriminate; destruct sg; discriminate.
  - rewrite FloatAxioms.ltb_spec in Hlt, Hgt.
    rewrite FloatAxioms.eqb_spec in Hnan |- *.
    replace (Prim2SF 0) with (S754_zero false) in * by reflexivity.
    destruct (Prim2SF x) as [sg | sg | | sg m e]; cbn in Hlt, Hgt, Hnan |- *;
      try discriminate; try reflexivity; destruct sg; discriminate.
Qed.

(** C5. For each of the three activation names, the constructor returns a
    network whose activation applies the function of the table to every
    entry and whose derivative applies the derivative of the table:
    tanh and [1 - tanh(x)^2]; [max(0, x)] (with the sign of a zero [x]
    kept, as [np.maximum] does) and [1 if x > 0 else 0];
    [1/(1+e^-x)] and [phi(x).(1 - phi(x))]. *)
Theorem activation_table (E : NumpyEnv) input_dim hidden_dim output_dim rate
    (k : Design.kind) g :
  exists net h,
    MLP_init E input_dim hidden_dim output_dim rate (Design.kind_name k) g
    = (Returned net, h) /\
    forall Z,
      activation net Z = amap (Design.phi (tanh1 E) (exp1 E) k) Z /\
      activation_prime net Z = amap (Design.phi' (tanh1 E) (exp1 E) k) Z.
Proof.
  rewrite init_draws. cbn zeta.
  destruct k; cbn [Design.kind_name String.eqb Ascii.eqb Bool.eqb];
    do 2 eexists; (split; [reflexivity|]); intros Z;
    cbn [activation activation_prime]; split.
  - reflexivity.
  - unfold tanh_prime, np_tanh. rewrite !amap_amap. reflexivity.
  - unfold relu, np_maximum_scalar. apply amap_ext. intros v.
    apply maximum1_zero.
  - reflexivity.
  - unfold sigmoid, np_exp. rewrite !amap_amap. reflexivity.
  - unfold sigmoid_prime, sigmoid, np_exp. rewrite !amap_amap.
    rewrite amap2_amap. reflexivity.
Qed.

(** The relu pair on the numbers -2, 0, 0.5 and 3. *)
Example relu_sample_values :
  relu (Sample.of_rows 1 4 [[-2; 0; 0.5; 3]]%float)
  = Sample.of_rows 1 4 [[0; 0; 0.5; 3]]%float /\
  relu_prime (Sample.of_rows 1 4 [[-2; 0; 0.5; 3]]%float)
  = Sample.of_rows 1 4 [[0; 0; 1; 1]]%float.
Proof. vm_compute. split; reflexivity. Qed.

(** The constructor establishes what the two methods assume. *)
Lemma init_network_ok (E : NumpyEnv) input_dim hidden_dim output_dim rate act g net h :
  env_ok E ->
  MLP_init E input_dim hidden_dim output_dim rate act g = (Returned net, h) ->
  network_ok input_dim hidden_dim output_dim net.
Proof.
  intros HE. rewrite init_draws. cbn zeta.
  pose proof (HE input_dim hidden_dim (seed E 0)) as H1.
  pose proof (HE hidden_dim output_dim
                (snd (randn E input_dim hidden_dim (seed E 0)))) as H2.
  destruct (String.eqb act "tanh"); [|destruct (String.eqb act "relu");
    [|destruct (String.eqb act "sigmoid"); [|discriminate]]];
    intros [= <- _]; (split; [repeat split; assumption|]);
    split; intros Z; reflexivity.
Qed.

(** [backward] keeps a network well shaped. *)
Lemma network_ok_after_backward input_dim hidden_dim output_dim s g :
  network_ok input_dim hidden_dim output_dim s ->
  network_ok input_dim hidden_dim output_dim (after_backward s g).
Proof.
  intros [[HW1 [Hb1 [HW2 Hb2]]] [Ha Ha']].
  split; [|split; assumption].
  repeat split; assumption.
Qed.

(* ================================================================== *)
(** * Further properties of forward *)
(* ================================================================== *)

(** X1. Calling [forward] a second time on the same batch changes
    nothing: the second call has the outcome of the first and leaves the
    object as the first call left it, whether the call returns or
    raises. *)
Theorem forward_idempotent (E : NumpyEnv) (X : ndarray) (s : MLP) :
  forward E X (snd (forward E X s)) = forward E X s.
Proof.
  unfold forward, bind, getattr, lift, getattr_opt, modify.
  destruct (np_dot E X (W1 s)) as [d1|e] eqn:E1; cbn [snd]; [|rewrite E1; reflexivity].
  destruct (np_add d1 (b1 s)) as [z|e] eqn:E2; cbn [snd]; [|rewrite E1, E2; reflexivity].
  cbn [z1 a1 z2 a2 W1 b1 W2 b2 activation set_z1 set_a1 set_z2 set_a2].
  destruct (np_dot E (activation s z) (W2 s)) as [d2|e] eqn:E3; cbn [snd].
  2:{ cbn [z1 a1 z2 a2 W1 b1 W2 b2 activation set_z1 set_a1 set_z2 set_a2].
      rewrite E1, E2.
      cbn [z1 a1 z2 a2 W1 b1 W2 b2 activation set_z1 set_a1 set_z2 set_a2].
      rewrite E3. reflexivity. }
  destruct (np_add d2 (b2 s)) as [z'|e] eqn:E4; cbn [snd].
  2:{ cbn [z1 a1 z2 a2 W1 b1 W2 b2 activation set_z1 set_a1 set_z2 set_a2].
      rewrite E1, E2.
      cbn [z1 a1 z2 a2 W1 b1 W2 b2 activation set_z1 set_a1 set_z2 set_a2].
      rewrite E3, E4. reflexivity. }
  cbn [z1 a1 z2 a2 W1 b1 W2 b2 activation set_z1 set_a1 set_z2 set_a2 snd].
  rewrite E1, E2.
  cbn [z1 a1 z2 a2 W1 b1 W2 b2 activation set_z1 set_a1 set_z2 set_a2].
  rewrite E3, E4. reflexivity.
Qed.

(** X2. On a well-shaped network [forward] returns exactly when the batch
    has [input_dim] columns; on any other batch it raises the
    [ValueError] of [np.dot] before assigning anything, so the cache still
    holds the tensors of the previous call. *)
Theorem forward_returns_iff (E : NumpyEnv) input_dim hidden_dim output_dim s X :
  network_ok input_dim hidden_dim output_dim s ->
  ((exists A s', forward E X s = (Returned A, s')) <-> ncols X = input_dim) /\
  (ncols X <> input_dim ->
   forward E X s = (Raised (ValueError "shapes not aligned"), s)).
Proof.
  intros Hok.
  assert (Hraise : ncols X <> input_dim ->
                   forward E X s = (Raised (ValueError "shapes not aligned"), s)).
  { intros Hne. destruct Hok as [[HW1 _] _].
    apply shape_inv in HW1. destruct HW1 as [HW1r _].
    unfold forward, bind, getattr, lift.
    rewrite np_dot_raises by congruence. reflexivity. }
  split; [split|exact Hraise].
  - intros [A [s' Hf]].
    destruct (Nat.eq_dec (ncols X) input_dim) as [Heq|Heq]; [exact Heq|].
    rewrite (Hraise Heq) in Hf. discriminate Hf.
  - intros Heq. do 2 eexists. exact (@forward_returns E _ _ _ s X Hok Heq).
Qed.

Lemma forward_returns_iff_witness :
  ((exists A s', forward Sample.env SampleEdge.X_three_cols Sample.net = (Returned A, s'))
   <-> ncols SampleEdge.X_three_cols = 2) /\
  (ncols SampleEdge.X_three_cols <> 2 ->
   forward Sample.env SampleEdge.X_three_cols Sample.net
   = (Raised (ValueError "shapes not aligned"), Sample.net)).
Proof.
  exact (@forward_returns_iff Sample.env 2 3 1 Sample.net SampleEdge.X_three_cols
           sample_net_ok).
Defined.

(* ================================================================== *)
(** * Further properties of backward *)
(* ================================================================== *)

(** X3. On a network that comes out of the constructor, [backward]
    raises [AttributeError] for the missing attribute [a2] and leaves the
    object as it was: no [forward] has filled the cache yet. *)
Theorem backward_before_forward (E : NumpyEnv)
    input_dim hidden_dim output_dim rate act g net h X y :
  MLP_init E input_dim hidden_dim output_dim rate act g = (Returned net, h) ->
  backward E X y net = (Raised (AttributeError "a2"), net).
Proof.
  rewrite init_draws. cbn zeta. intros H.
  assert (Ha2 : a2 net = None).
  { destruct (String.eqb act "tanh"); [|destruct (String.eqb act "relu");
      [|destruct (String.eqb act "sigmoid"); [|discriminate H]]];
      injection H as <- _; reflexivity. }
  unfold backward, bind, getattr_opt. rewrite Ha2. reflexivity.
Qed.

Lemma sample_built : 
  MLP_init Sample.env 2 3 1 0.5%float "relu" 7
  = (Returned (Sample.built 0.5 "relu" 7), 9).
Proof. vm_compute. reflexivity. Defined.

Lemma backward_before_forward_witness :
  backward Sample.env Sample.X Sample.y (Sample.built 0.5 "relu" 7)
  = (Raised (AttributeError "a2"), Sample.built 0.5 "relu" 7).
Proof.
  exact (@backward_before_forward Sample.env 2 3 1 0.5%float "relu"%string 7
           (Sample.built 0.5 "relu" 7) 9 Sample.X Sample.y sample_built).
Defined.

(** An in-place subtraction whose right operand has a different number
    of rows, and more than one, is rejected. *)
Lemma np_isub_raises_rows A B :
  nrows B <> nrows A -> nrows B <> 1 ->
  exists msg, np_isub A B = Raised (ValueError msg).
Proof.
  intros Hne H1. unfold np_isub, np_sub.
  destruct (np_binop PrimFloat.sub A B) as [R|e] eqn:HR.
  - apply np_binop_inv in HR. destruct HR as [Hr _].
    apply broadcast_dim_some in Hr.
    destruct Hr as [[Heq _] | [[Heq Heq'] | [Heq _]]]; try congruence.
    assert (Hb : (nrows R =? nrows A) = false)
      by (apply Nat.eqb_neq; congruence).
    rewrite Hb. cbn [andb]. eexists; reflexivity.
  - apply np_binop_raised in HR. destruct HR as [msg ->]. eexists; reflexivity.
Qed.

(** X4. [backward] is not atomic.  After [forward] on a batch [X0] of
    [N] rows, a call [backward X y] with labels of the right shape and a
    batch [X] that has [N] rows but a number of columns that is neither
    [input_dim] nor 1 raises a [ValueError] at [self.W1 -= ...], after
    [W2] and [b2] have been updated: the object is left with the [W2] and
    [b2] that the call [backward X0 y] would have stored, that is the old
    ones minus the learning rate times the gradients [dW2], [db2] of
    that call, with the old [W1] and [b1], no new gradients and the same
    cache. *)
Theorem backward_partial_update (E : NumpyEnv)
    input_dim hidden_dim output_dim N s0 X0 A s1 X y :
  network_ok input_dim hidden_dim output_dim s0 ->
  shape X0 = (N, input_dim) ->
  forward E X0 s0 = (Returned A, s1) ->
  shape y = (N, output_dim) ->
  nrows X = N -> ncols X <> input_dim -> ncols X <> 1 ->
  exists msg s2 t g,
    backward E X y s1 = (Raised (ValueError msg), s2) /\
    backward E X0 y s1 = (Returned tt, t) /\ gradients t = Some g /\
    W2 s2 = W2 t /\ b2 s2 = b2 t /\
    W2 s2 = Design.descent (lr s1) (W2 s1) (dW2 g) /\
    b2 s2 = Design.descent (lr s1) (b2 s1) (db2 g) /\
    W1 s2 = W1 s1 /\ b1 s2 = b1 s1 /\ gradients s2 = gradients s1 /\
    same_cache s1 s2.
Proof.
  intros Hok HX0 Hf Hy HXr HXc HXc1.
  pose proof (forward_cache_shapes E Hok HX0) as [HZ1 [HA1 [_ HA2]]].
  destruct (step_returns E Hok HX0 Hy) as [Hf' Hgood]. cbn zeta in Hf', Hgood.
  rewrite Hf' in Hf. injection Hf as _ <-.
  destruct Hok as [[HW1 [Hb1 [HW2 Hb2]]] [_ Hact']].
  set (Z1 := Design.affine E X0 (W1 s0) (b1 s0)) in *.
  set (A1 := activation s0 Z1) in *.
  set (Z2 := Design.affine E A1 (W2 s0) (b2 s0)) in *.
  set (A2 := activation s0 Z2) in *.
  set (s1 := after_forward s0 Z1 A1 Z2 A2) in *.
  pose proof (Hact' Z1) as HP. rewrite HZ1 in HP.
  pose proof HW2 as HW2'. apply shape_inv in HW2'. destruct HW2' as [HW2r HW2c].
  pose proof HW1 as HW1'. apply shape_inv in HW1'. destruct HW1' as [HW1r HW1c].
  pose proof HA2 as HA2'. apply shape_inv in HA2'. destruct HA2' as [HA2r HA2c].
  pose proof HA1 as HA1'. apply shape_inv in HA1'. destruct HA1' as [HA1r HA1c].
  pose proof HX0 as HX0'. apply shape_inv in HX0'. destruct HX0' as [HX0r HX0c].
  set (d2 := Design.delta2 A2 y).
  set (d1 := Design.delta1 E d2 (W2 s0) (activation_prime s0 Z1)).
  assert (Hd2 : np_sub A2 y = Returned d2) by (apply delta2_refines; congruence).
  destruct (@weight_grad_refines E A1 d2 (nrows X)) as [P2 [HP2 HG2]].
  { unfold d2, Design.delta2. cbn [nrows tabulate]. congruence. }
  destruct (@delta1_refines E d2 (W2 s0) (activation_prime s0 Z1)) as [B [HB HD1]].
  { unfold d2, Design.delta2. cbn [ncols tabulate]. congruence. }
  { unfold d2, Design.delta2. cbn [nrows tabulate]. congruence. }
  fold d1 in HD1.
  destruct (@weight_grad_refines E X d1 (nrows X)) as [P1 [HP1 HG1]].
  { unfold d1, Design.delta1, d2, Design.delta2. cbn [nrows tabulate]. congruence. }
  destruct (@np_isub_raises_rows (W1 s0)
              (scalar_mul (lr s0) (Design.weight_grad E X d1 (nrows X))))
    as [msg Hmsg].
  { cbn [nrows scalar_mul amap tabulate Design.weight_grad]. congruence. }
  { cbn [nrows scalar_mul amap tabulate Design.weight_grad]. congruence. }
  exists msg. do 3 eexists.
  split.
  { unfold backward, bind, getattr, lift, getattr_opt, modify.
    cbn [a2 a1 z1 W2 s1 after_forward set_a2 set_z2 set_a1 set_z1 activation_prime].
    rewrite Hd2, HP2, HB, HD1, HP1.
    rewrite HG2, HG1, !bias_grad_refines.
    cbn [lr W1 b1 W2 b2 set_W2 set_b2 s1 after_forward set_a2 set_z2 set_a1 set_z1].
    rewrite descent_refines
      by (rewrite shape_weight_grad, HW2; unfold d2, Design.delta2;
          cbn [ncols tabulate]; congruence).
    cbn [lr W1 b1 W2 b2 set_W2 set_b2 s1 after_forward set_a2 set_z2 set_a1 set_z1].
    rewrite descent_refines
      by (rewrite shape_bias_grad, Hb2; unfold d2, Design.delta2;
          cbn [ncols tabulate]; congruence).
    cbn [lr W1 b1 W2 b2 set_W2 set_b2 s1 after_forward set_a2 set_z2 set_a1 set_z1].
    rewrite Hmsg. reflexivity. }
  split; [exact Hgood|].
  split; [reflexivity|].
  unfold same_cache, after_backward, design_gradients.
  cbn [lr W1 b1 W2 b2 dW2 db2 gradients z1 a1 z2 a2 set_W2 set_b2 set_W1 set_b1
       set_gradients s1 after_forward set_a2 set_z2 set_a1 set_z1].
  fold d2. rewrite HXr, HX0r.
  repeat split; reflexivity.
Qed.

Lemma backward_partial_update_witness :
  exists msg s2 t g,
    backward Sample.env SampleEdge.X_three_cols Sample.y Sample.net1
    = (Raised (ValueError msg), s2) /\
    backward Sample.env Sample.X Sample.y Sample.net1 = (Returned tt, t) /\
    gradients t = Some g /\
    W2 s2 = W2 t /\ b2 s2 = b2 t /\
    W2 s2 = Design.descent (lr Sample.net1) (W2 Sample.net1) (dW2 g) /\
    b2 s2 = Design.descent (lr Sample.net1) (b2 Sample.net1) (db2 g) /\
    W1 s2 = W1 Sample.net1 /\ b1 s2 = b1 Sample.net1 /\
    gradients s2 = gradients Sample.net1 /\
    same_cache Sample.net1 s2.
Proof.
  apply (@backward_partial_update Sample.env 2 3 1 2 Sample.net Sample.X
           Sample.out Sample.net1 SampleEdge.X_three_cols Sample.y sample_net_ok).
  - reflexivity.
  - exact sample_forward.
  - reflexivity.
  - reflexivity.
  - cbn. lia.
  - cbn. lia.
Defined.

(** The half-made update in numbers: [W2] has moved, [W1] has not, and
    nothing was stored in [gradients]. *)
Example backward_partial_update_values :
  let r := backward Sample.env SampleEdge.X_three_cols Sample.y Sample.net1 in
  fst r = Raised (ValueError "operands could not be broadcast together") /\
  W2 (snd r) = Sample.of_rows 3 1 [[0.0625]; [-1]; [0.294921875]]%float /\
  W1 (snd r) = Sample.w1 /\
  gradients (snd r) = None.
Proof. vm_compute. repeat split; reflexivity. Qed.

(** X5. When the batch has [input_dim] columns, a failing [backward] is
    atomic: after a [forward], if [backward X y] raises, whatever the
    labels and the row count of [X], the exception is a [ValueError] and
    the object is exactly as before the call. *)
Theorem backward_failure_atomic (E : NumpyEnv)
    input_dim hidden_dim output_dim N s0 X0 A s1 X y e s2 :
  network_ok input_dim hidden_dim output_dim s0 ->
  shape X0 = (N, input_dim) ->
  forward E X0 s0 = (Returned A, s1) ->
  ncols X = input_dim ->
  backward E X y s1 = (Raised e, s2) ->
  s2 = s1 /\ exists msg, e = ValueError msg.
Proof.
  intros Hok HX0 Hf HXc Hb.
  pose proof (forward_cache_shapes E Hok HX0) as [HZ1 [HA1 [_ HA2]]].
  pose proof HX0 as HX'. apply shape_inv in HX'. destruct HX' as [_ HX0c].
  rewrite (@forward_returns E _ _ _ s0 X0 Hok HX0c) in Hf.
  injection Hf as _ <-.
  destruct Hok as [[HW1 [Hb1 [HW2 Hb2]]] [_ Hact']].
  set (Z1 := Design.affine E X0 (W1 s0) (b1 s0)) in *.
  set (A1 := activation s0 Z1) in *.
  set (Z2 := Design.affine E A1 (W2 s0) (b2 s0)) in *.
  set (A2 := activation s0 Z2) in *.
  pose proof (Hact' Z1) as HP. rewrite HZ1 in HP.
  apply shape_inv in HZ1, HA1, HA2, HP.
  destruct HA1 as [HA1r HA1c], HA2 as [HA2r HA2c], HP as [HPr HPc].
  pose proof HW2 as HW2'. apply shape_inv in HW2'. destruct HW2' as [HW2r HW2c].
  unfold backward, bind, getattr, lift, getattr_opt, modify in Hb.
  cbn [a2 a1 z1 W2 after_forward set_a2 set_z2 set_a1 set_z1 activation_prime] in Hb.
  destruct (np_sub A2 y) as [d2|e1] eqn:Hd2.
  2:{ injection Hb as <- <-. split; [reflexivity|].
      apply np_binop_raised in Hd2. exact Hd2. }
  destruct (np_dot E (transpose A1) d2) as [P2|e1] eqn:HP2.
  2:{ injection Hb as <- <-. split; [reflexivity|].
      apply np_dot_raised in HP2. exact HP2. }
  destruct (np_dot E d2 (transpose (W2 s0))) as [B|e1] eqn:HB.
  2:{ injection Hb as <- <-. split; [reflexivity|].
      apply np_dot_raised in HB. exact HB. }
  destruct (np_mul B (activation_prime s0 Z1)) as [d1|e1] eqn:Hd1.
  2:{ injection Hb as <- <-. split; [reflexivity|].
      apply np_binop_raised in Hd1. exact Hd1. }
  destruct (np_dot E (transpose X) d1) as [P1|e1] eqn:HP1.
  2:{ injection Hb as <- <-. split; [reflexivity|].
      apply np_dot_raised in HP1. exact HP1. }
  exfalso.
  apply np_dot_inv in HP2, HB, HP1. cbn [nrows ncols transpose tabulate] in HP2, HB, HP1.
  destruct HP2 as [E2 [P2r P2c]], HB as [EB [Br Bc]], HP1 as [E1 [P1r P1c]].
  apply np_binop_inv in Hd1. destruct Hd1 as [D1r D1c].
  rewrite Br, HPr, <- E2, HA1r, broadcast_dim_same in D1r.
  rewrite Bc, HPc, HW2r, broadcast_dim_same in D1c.
  injection D1r as D1r. injection D1c as D1c.
  cbn [lr W1 b1 W2 b2 set_W2 set_b2 set_W1 set_b1 after_forward
       set_a2 set_z2 set_a1 set_z1] in Hb.
  rewrite descent_refines in Hb
    by (unfold shape, div_int, amap; cbn [nrows ncols tabulate];
        apply shape_inv in HW2; destruct HW2; congruence).
  rewrite descent_refines in Hb
    by (unfold shape, div_int, amap, np_sum_axis0; cbn [nrows ncols tabulate];
        apply shape_inv in Hb2; destruct Hb2; congruence).
  rewrite descent_refines in Hb
    by (unfold shape, div_int, amap; cbn [nrows ncols tabulate];
        apply shape_inv in HW1; destruct HW1; congruence).
  rewrite descent_refines in Hb
    by (unfold shape, div_int, amap, np_sum_axis0; cbn [nrows ncols tabulate];
        apply shape_inv in Hb1; destruct Hb1; congruence).
  discriminate Hb.
Qed.

Lemma sample_backward_three_rows :
  backward Sample.env Sample.X Sample.y_three_rows Sample.net1
  = (Raised (ValueError "operands could not be broadcast together"), Sample.net1).
Proof. vm_compute. reflexivity. Defined.

Lemma backward_failure_atomic_witness :
  Sample.net1 = Sample.net1 /\
  exists msg, ValueError "operands could not be broadcast together" = ValueError msg.
Proof.
  apply (@backward_failure_atomic Sample.env 2 3 1 2 Sample.net Sample.X Sample.out
           Sample.net1 Sample.X Sample.y_three_rows
           (ValueError "operands could not be broadcast together")
           Sample.net1 sample_net_ok).
  - reflexivity.
  - exact sample_forward.
  - reflexivity.
  - exact sample_backward_three_rows.
Defined.

(* ------------------------------------------------------------------ *)
(** ** An empty batch *)

Lemma float_is_nan x : Prim2SF x = S754_nan -> x = PrimFloat.nan.
Proof.
  intros H. rewrite <- (FloatAxioms.SF2Prim_Prim2SF x), H. reflexivity.
Qed.

Lemma mul_nan_r x : (x * PrimFloat.nan)%float = PrimFloat.nan.
Proof.
  apply float_is_nan. rewrite FloatAxioms.mul_spec.
  replace (Prim2SF PrimFloat.nan) with S754_nan by reflexivity.
  destruct (Prim2SF x); reflexivity.
Qed.

Lemma sub_nan_r x : (x - PrimFloat.nan)%float = PrimFloat.nan.
Proof.
  apply float_is_nan. rewrite FloatAxioms.sub_spec.
  replace (Prim2SF PrimFloat.nan) with S754_nan by reflexivity.
  destruct (Prim2SF x); reflexivity.
Qed.

(** A product over an empty inner dimension and a sum of no rows are
    zero; the mean of no numbers is [0/0]. *)
Lemma dot_at_empty (E : NumpyEnv) A B i j :
  ncols A = 0 -> dot_at E A B i j = 0%float.
Proof. intros H. unfold dot_at. rewrite H. reflexivity. Qed.

Lemma sum0_at_empty (E : NumpyEnv) A j :
  nrows A = 0 -> sum0_at E A j = 0%float.
Proof. intros H. unfold sum0_at. rewrite H. reflexivity. Qed.

Lemma empty_mean : (0 / float_of_nat 0)%float = PrimFloat.nan.
Proof. reflexivity. Qed.

(** X6. A training step on an empty batch ([N = 0]) raises nothing and
    destroys the network: [forward] and [backward] both return, and
    afterwards every entry of [W1], [b1], [W2] and [b2] is NaN (each
    gradient is a mean over zero samples, [0/0]). *)
Theorem empty_batch_step (E : NumpyEnv) input_dim hidden_dim output_dim s0 X y :
  network_ok input_dim hidden_dim output_dim s0 ->
  shape X = (0, input_dim) ->
  shape y = (0, output_dim) ->
  exists A s1 s2,
    forward E X s0 = (Returned A, s1) /\
    backward E X y s1 = (Returned tt, s2) /\
    (forall i j, i < input_dim -> j < hidden_dim ->
                 get (W1 s2) i j = PrimFloat.nan) /\
    (forall j, j < hidden_dim -> get (b1 s2) 0 j = PrimFloat.nan) /\
    (forall i j, i < hidden_dim -> j < output_dim ->
                 get (W2 s2) i j = PrimFloat.nan) /\
    (forall j, j < output_dim -> get (b2 s2) 0 j = PrimFloat.nan).
Proof.
  intros Hok HX Hy.
  destruct (step_returns E Hok HX Hy) as [Hf Hb].
  pose proof (forward_cache_shapes E Hok HX) as [_ [HA1 [_ HA2]]].
  destruct Hok as [[HW1 [Hb1 [HW2 Hb2]]] _].
  apply shape_inv in HX, HA1, HA2, HW1, HW2, Hb1, Hb2.
  destruct HX as [HXr HXc], HA1 as [HA1r HA1c], HA2 as [HA2r HA2c].
  destruct HW1 as [HW1r HW1c], HW2 as [HW2r HW2c].
  destruct Hb1 as [Hb1r Hb1c], Hb2 as [Hb2r Hb2c].
  do 3 eexists. split; [exact Hf|]. split; [exact Hb|].
  unfold after_backward, design_gradients, after_forward.
  cbn [dW1 db1 dW2 db2 lr W1 b1 W2 b2
       set_gradients set_b1 set_W1 set_b2 set_W2 set_a2 set_z2 set_a1 set_z1].
  unfold Design.descent, Design.weight_grad, Design.bias_grad.
  repeat split; intros.
  - rewrite get_tabulate by congruence.
    rewrite get_tabulate
      by (unfold Design.delta1, Design.delta2; cbn [nrows ncols tabulate]; congruence).
    rewrite dot_at_empty by (cbn [nrows ncols tabulate transpose]; exact HXr).
    rewrite HXr, empty_mean, mul_nan_r, sub_nan_r. reflexivity.
  - rewrite get_tabulate by (try rewrite Hb1r; try rewrite Hb1c; lia).
    rewrite get_tabulate
      by (unfold Design.delta1, Design.delta2; cbn [nrows ncols tabulate];
          try lia; congruence).
    rewrite sum0_at_empty
      by (unfold Design.delta1, Design.delta2; cbn [nrows tabulate]; exact HA2r).
    rewrite HXr, empty_mean, mul_nan_r, sub_nan_r. reflexivity.
  - rewrite get_tabulate by congruence.
    rewrite get_tabulate
      by (unfold Design.delta2; cbn [nrows ncols tabulate]; congruence).
    rewrite dot_at_empty by (cbn [nrows ncols tabulate transpose]; exact HA1r).
    rewrite HXr, empty_mean, mul_nan_r, sub_nan_r. reflexivity.
  - rewrite get_tabulate by (try rewrite Hb2r; try rewrite Hb2c; lia).
    rewrite get_tabulate
      by (unfold Design.delta2; cbn [nrows ncols tabulate]; try lia; congruence).
    rewrite sum0_at_empty
      by (unfold Design.delta2; cbn [nrows tabulate]; exact HA2r).
    rewrite HXr, empty_mean, mul_nan_r, sub_nan_r. reflexivity.
Qed.

Lemma empty_batch_step_witness :
  exists A s1 s2,
    forward Sample.env SampleEdge.X_empty Sample.net = (Returned A, s1) /\
    backward Sample.env SampleEdge.X_empty SampleEdge.y_empty s1 = (Returned tt, s2) /\
    (forall i j, i < 2 -> j < 3 -> get (W1 s2) i j = PrimFloat.nan) /\
    (forall j, j < 3 -> get (b1 s2) 0 j = PrimFloat.nan) /\
    (forall i j, i < 3 -> j < 1 -> get (W2 s2) i j = PrimFloat.nan) /\
    (forall j, j < 1 -> get (b2 s2) 0 j = PrimFloat.nan).
Proof.
  apply (@empty_batch_step Sample.env 2 3 1 Sample.net SampleEdge.X_empty
           SampleEdge.y_empty sample_net_ok).
  - reflexivity.
  - reflexivity.
Defined.

(** The sample network after one step on the empty batch. *)
Example empty_batch_values :
  W2 (snd (backward Sample.env SampleEdge.X_empty SampleEdge.y_empty
             (snd (forward Sample.env SampleEdge.X_empty Sample.net))))
  = Sample.of_rows 3 1 [[PrimFloat.nan]; [PrimFloat.nan]; [PrimFloat.nan]].
Proof. vm_compute. reflexivity. Qed.

(* ================================================================== *)
(** * The training loop *)
(* ================================================================== *)

Lemma bind_assoc (A B C : Type) (m : method A) (f : A -> method B)
    (k : B -> method C) s :
  bind (bind m f) k s = bind m (fun a => bind (f a) k) s.
Proof. unfold bind. destruct (m s) as [[a|e] s']; reflexivity. Qed.

Lemma bind_ext (A B : Type) (m : method A) (f f' : A -> method B) s :
  (forall a t, f a t = f' a t) -> bind m f s = bind m f' s.
Proof.
  intros H. unfold bind. destruct (m s) as [[a|e] s']; [apply H | reflexivity].
Qed.

Lemma bind_ret_unit (m : method unit) s : (m ;;; ret tt) s = m s.
Proof. unfold bind, ret. destruct (m s) as [[[]|e] s']; reflexivity. Qed.

(** The last step of the loop, taken apart. *)
Lemma training_steps_snoc (E : NumpyEnv) (k : nat) (X y : ndarray) (s : MLP) :
  training_steps E (S k) X y s
  = (training_steps E k X y ;;; (forward E X ;;; backward E X y)) s.
Proof.
  revert s. induction k as [|k IH]; intros s.
  - cbn [training_steps]. unfold bind at 3. unfold ret at 2.
    apply bind_ext. intros _ t. apply bind_ret_unit.
  - change (training_steps E (S (S k)) X y s)
      with ((forward E X ;;; backward E X y ;;; training_steps E (S k) X y) s).
    change (training_steps E (S k) X y)
      with (forward E X ;;; backward E X y ;;; training_steps E k X y) at 2.
    rewrite bind_assoc. apply bind_ext. intros _ t.
    rewrite bind_assoc. apply bind_ext. intros _ u.
    apply IH.
Qed.

Lemma forward_keeps_settings (E : NumpyEnv) X s : same_settings s (snd (forward E X s)).
Proof.
  unfold forward, same_settings.
  run_method; repeat split; cbn; congruence.
Qed.

Lemma backward_keeps_settings (E : NumpyEnv) X y s : same_settings s (snd (backward E X y s)).
Proof.
  unfold backward, same_settings.
  run_method; repeat split; cbn; congruence.
Qed.

Lemma same_settings_trans s t u :
  same_settings s t -> same_settings t u -> same_settings s u.
Proof.
  unfold same_settings. intros [H1 [H2 [H3 H4]]] [K1 [K2 [K3 K4]]].
  repeat split; congruence.
Qed.

(** X8. Training never touches the settings: after any number of steps
    on any arguments, and also when a step raises, the learning rate, the
    activation name, the activation and its derivative are those the
    constructor stored. *)
Theorem training_keeps_settings (E : NumpyEnv) (n : nat) (X y : ndarray) (s : MLP) :
  same_settings s (snd (training_steps E n X y s)).
Proof.
  revert s. induction n as [|n IH]; intros s.
  - repeat split; reflexivity.
  - cbn [training_steps]. unfold bind at 1.
    pose proof (forward_keeps_settings E X s) as Hf.
    destruct (forward E X s) as [[A|e] s1]; cbn [snd] in *; [|exact Hf].
    unfold bind at 1.
    pose proof (backward_keeps_settings E X y s1) as Hb.
    destruct (backward E X y s1) as [[u|e] s2]; cbn [snd] in *.
    + apply (same_settings_trans Hf). apply (same_settings_trans Hb). apply IH.
    + apply (same_settings_trans Hf Hb).
Qed.

Lemma training_runs (E : NumpyEnv) input_dim hidden_dim output_dim N X y (n : nat) s :
  network_ok input_dim hidden_dim output_dim s ->
  shape X = (N, input_dim) ->
  shape y = (N, output_dim) ->
  exists s',
    training_steps E n X y s = (Returned tt, s') /\
    network_ok input_dim hidden_dim output_dim s'.
Proof.
  intros Hok HX Hy. revert s Hok.
  induction n as [|n IH]; intros s Hok.
  - exists s. split; [reflexivity | exact Hok].
  - destruct (step_returns E Hok HX Hy) as [Hf Hb].
    cbn zeta in Hf, Hb.
    match type of Hb with
    | backward E _ _ ?s1 = (_, ?s2) =>
        assert (Hok2 : network_ok input_dim hidden_dim output_dim s2)
          by (apply network_ok_after_backward;
              apply network_ok_after_forward; exact Hok);
        destruct (IH s2 Hok2) as [s' [Ht Hok']]
    end.
    exists s'. split; [|exact Hok'].
    cbn [training_steps]. unfold bind at 1. rewrite Hf.
    unfold bind at 1. rewrite Hb. exact Ht.
Qed.

(** X9. On a well-shaped network, a batch of shape [N x input_dim] and
    labels of shape [N x output_dim], any number of training steps runs to
    the end without an exception and leaves a well-shaped network: the
    parameters keep their shapes and the activation pair stays
    entrywise. *)
Theorem training_returns (E : NumpyEnv) input_dim hidden_dim output_dim N X y (n : nat) s :
  network_ok input_dim hidden_dim output_dim s ->
  shape X = (N, input_dim) ->
  shape y = (N, output_dim) ->
  exists s',
    training_steps E n X y s = (Returned tt, s') /\
    network_ok input_dim hidden_dim output_dim s'.
Proof.
  intros Hok HX Hy.
  destruct (@training_runs E _ _ _ N X y n s Hok HX Hy) as [s' [Ht Hok']].
  exists s'. split; assumption.
Qed.

Lemma training_returns_witness :
  exists s',
    training_steps Sample.env 10 Sample.X Sample.y Sample.net = (Returned tt, s') /\
    network_ok 2 3 1 s'.
Proof.
  apply (@training_returns Sample.env 2 3 1 2 Sample.X Sample.y 10 Sample.net sample_net_ok).
  - reflexivity.
  - reflexivity.
Defined.

(** X10. After the loop the cache is one update behind the parameters:
    with [sp] the object before the last step, the cached [z1], [a1],
    [z2], [a2] are those that [forward X] leaves on [sp] ([a2] being the
    array that call returns), while [W1], [b1], [W2], [b2] are already
    the parameters of [sp] minus the learning rate times the stored
    gradients.  ([update] plots this cached [a1].) *)
Theorem training_cache_one_step_behind (E : NumpyEnv)
    input_dim hidden_dim output_dim N X y (k : nat) s :
  network_ok input_dim hidden_dim output_dim s ->
  shape X = (N, input_dim) ->
  shape y = (N, output_dim) ->
  exists sp s' A sf g,
    training_steps E k X y s = (Returned tt, sp) /\
    training_steps E (S k) X y s = (Returned tt, s') /\
    forward E X sp = (Returned A, sf) /\
    same_cache sf s' /\ a2 s' = Some A /\
    gradients s' = Some g /\
    W1 s' = Design.descent (lr sp) (W1 sp) (dW1 g) /\
    b1 s' = Design.descent (lr sp) (b1 sp) (db1 g) /\
    W2 s' = Design.descent (lr sp) (W2 sp) (dW2 g) /\
    b2 s' = Design.descent (lr sp) (b2 sp) (db2 g).
Proof.
  intros Hok HX Hy.
  destruct (@training_runs E _ _ _ N X y k s Hok HX Hy) as [sp [Hk Hokp]].
  destruct (step_returns E Hokp HX Hy) as [Hf Hb]. cbn zeta in Hf, Hb.
  exists sp. do 4 eexists.
  split; [exact Hk|].
  split.
  - rewrite training_steps_snoc. unfold bind at 1. rewrite Hk.
    unfold bind at 1. rewrite Hf. exact Hb.
  - split; [exact Hf|]. repeat split; reflexivity.
Qed.

Lemma training_cache_one_step_behind_witness :
  exists sp s' A sf g,
    training_steps Sample.env 3 Sample.X Sample.y Sample.net = (Returned tt, sp) /\
    training_steps Sample.env 4 Sample.X Sample.y Sample.net = (Returned tt, s') /\
    forward Sample.env Sample.X sp = (Returned A, sf) /\
    same_cache sf s' /\ a2 s' = Some A /\
    gradients s' = Some g /\
    W1 s' = Design.descent (lr sp) (W1 sp) (dW1 g) /\
    b1 s' = Design.descent (lr sp) (b1 sp) (db1 g) /\
    W2 s' = Design.descent (lr sp) (W2 sp) (dW2 g) /\
    b2 s' = Design.descent (lr sp) (b2 sp) (db2 g).
Proof.
  apply (@training_cache_one_step_behind Sample.env 2 3 1 2 Sample.X Sample.y 3
           Sample.net sample_net_ok).
  - reflexivity.
  - reflexivity.
Defined.

(** On the sample data the cached output after one step, 2.5 and 0.3125,
    is not what the updated network computes, 0 and 0. *)
Example stale_cache_values :
  a2 Sample.net2 = Some (Sample.of_rows 2 1 [[2.5]; [0.3125]]%float) /\
  fst (forward Sample.env Sample.X Sample.net2)
  = Returned (Sample.of_rows 2 1 [[0]; [0]]%float).
Proof. vm_compute. split; reflexivity. Qed.

(* ================================================================== *)
(** * The data of the script *)
(* ================================================================== *)

Lemma combine_map_seq (A B : Type) (f : nat -> A) (h : nat -> B) l :
  combine (map f l) (map h l) = map (fun i => (f i, h i)) l.
Proof. induction l as [|x l IH]; cbn; [reflexivity | rewrite IH; reflexivity]. Qed.

(** The label of the point in row [i] of [X]. *)
Lemma generate_data_unfold (E : NumpyEnv) n g :
  let X := fst (randn E n 2 (seed E 0)) in
  generate_data E n g
  = ((X, reshape_column
           (map (fun i =>
                   ((if (1 <? get X i 0 * get X i 0 + get X i 1 * get X i 1)%float
                     then 1 else 0) * 2 - 1)%Z)
                (seq 0 (nrows X)))),
     snd (randn E n 2 (seed E 0))).
Proof.
  intros X. unfold generate_data. subst X.
  destruct (randn E n 2 (seed E 0)) as [X g1]. cbn [fst snd].
  unfold column. rewrite !map_map, combine_map_seq, !map_map.
  reflexivity.
Qed.

Lemma get_reshape_column (h : nat -> Z) n i :
  i < n ->
  get (reshape_column (map h (seq 0 n))) i 0 = float_of_int (h i).
Proof.
  intros Hi. unfold get, reshape_column. cbn [cells].
  rewrite map_map, nth_tab by exact Hi. reflexivity.
Qed.

Lemma generate_data_shapes (E : NumpyEnv) n g :
  env_ok E ->
  shape (fst (fst (generate_data E n g))) = (n, 2) /\
  shape (snd (fst (generate_data E n g))) = (n, 1).
Proof.
  intros HE. rewrite generate_data_unfold. cbn [fst snd].
  pose proof (HE n 2 (seed E 0)) as HX. split; [exact HX|].
  apply shape_inv in HX. destruct HX as [HXr _].
  unfold shape, reshape_column. cbn [nrows ncols].
  rewrite length_map, length_seq, HXr. reflexivity.
Qed.

(** X11. [generate_data] returns [n] points and [n] labels in one
    column; the label of a point is 1 when the squared distance
    [x0^2 + x1^2] exceeds 1 and -1 otherwise, so every label is 1 or
    -1. *)
Theorem generate_data_labels (E : NumpyEnv) n g :
  env_ok E ->
  let X := fst (fst (generate_data E n g)) in
  let y := snd (fst (generate_data E n g)) in
  shape X = (n, 2) /\ shape y = (n, 1) /\ wf y = true /\
  forall i, i < n ->
    get y i 0
    = (if (1 <? get X i 0 * get X i 0 + get X i 1 * get X i 1)%float
       then 1%float else (-1)%float) /\
    (get y i 0 = 1%float \/ get y i 0 = (-1)%float).
Proof.
  intros HE X y.
  destruct (generate_data_shapes n g HE) as [HX Hy].
  split; [exact HX|]. split; [exact Hy|].
  subst X y. rewrite generate_data_unfold in *. cbn [fst snd] in *.
  apply shape_inv in HX. destruct HX as [HXr _].
  split.
  - unfold wf, reshape_column. cbn [cells nrows ncols].
    rewrite !length_map, Nat.eqb_refl. cbn [andb].
    apply forallb_forall. intros row Hrow.
    rewrite map_map in Hrow. apply in_map_iff in Hrow.
    destruct Hrow as [i [<- _]]. reflexivity.
  - intros i Hi.
    rewrite get_reshape_column by (rewrite HXr; exact Hi).
    destruct (1 <? _)%float; split; try reflexivity; [left | right]; reflexivity.
Qed.

Lemma sample_env_ok : env_ok Sample.env.
Proof. intros r c g. reflexivity. Defined.

Lemma generate_data_labels_witness :
  let X := fst (fst (generate_data Sample.env 4 11)) in
  let y := snd (fst (generate_data Sample.env 4 11)) in
  shape X = (4, 2) /\ shape y = (4, 1) /\ wf y = true /\
  forall i, i < 4 ->
    get y i 0
    = (if (1 <? get X i 0 * get X i 0 + get X i 1 * get X i 1)%float
       then 1%float else (-1)%float) /\
    (get y i 0 = 1%float \/ get y i 0 = (-1)%float).
Proof.
  exact (@generate_data_labels Sample.env 4 11 sample_env_ok).
Defined.

(** On the sample generator the points are (0,1), (2,3), (4,5), (6,7):
    the first lies on the unit circle and is labelled -1. *)
Example generate_data_sample :
  SampleEdge.data
  = (Sample.of_rows 4 2 [[0; 1]; [2; 3]; [4; 5]; [6; 7]]%float,
     Sample.of_rows 4 1 [[-1]; [1]; [1]; [1]]%float).
Proof. vm_compute. reflexivity. Qed.

(** X12. The script's data fit the script's network: with the points and
    labels of [generate_data] and a network built by the constructor with
    2 inputs and 1 output (any number of hidden units, any of the three
    activations), training for any number of steps raises nothing and
    keeps the network well shaped. *)
Theorem script_training_returns (E : NumpyEnv)
    n hidden_dim rate act g g' net h (k : nat) :
  env_ok E ->
  MLP_init E 2 hidden_dim 1 rate act g' = (Returned net, h) ->
  let X := fst (fst (generate_data E n g)) in
  let y := snd (fst (generate_data E n g)) in
  exists s',
    training_steps E k X y net = (Returned tt, s') /\
    network_ok 2 hidden_dim 1 s'.
Proof.
  intros HE Hinit X y.
  destruct (generate_data_shapes n g HE) as [HX Hy].
  pose proof (@init_network_ok E 2 hidden_dim 1 rate act g' net h HE Hinit) as Hok.
  exact (@training_runs E 2 hidden_dim 1 n X y k net Hok HX Hy).
Qed.

Lemma script_training_returns_witness :
  exists s',
    training_steps Sample.env 10 (fst (fst (generate_data Sample.env 4 11)))
      (snd (fst (generate_data Sample.env 4 11)))
      (Sample.built 0.5 "relu" 7)
    = (Returned tt, s') /\
    network_ok 2 3 1 s'.
Proof.
  exact (@script_training_returns Sample.env 4 3 0.5%float "relu"%string 11 7
           (Sample.built 0.5 "relu" 7) 9 10 sample_env_ok sample_built).
Defined.

(* ================================================================== *)
(** * Two resets of one generator *)
(* ================================================================== *)

Lemma init_W1 (E : NumpyEnv) input_dim hidden_dim output_dim rate act g net h :
  MLP_init E input_dim hidden_dim output_dim rate act g = (Returned net, h) ->
  W1 net = fst (randn E input_dim hidden_dim (seed E 0)).
Proof.
  rewrite init_draws. cbn zeta.
  destruct (String.eqb act "tanh"); [|destruct (String.eqb act "relu");
    [|destruct (String.eqb act "sigmoid"); [|discriminate]]];
    intros [= <- _]; reflexivity.
Qed.

(** X13. [generate_data] and the constructor both reset the generator to
    seed 0, so with a generator that hands out one stream of numbers the
    initial weights repeat the data: read row by row, the entries of [W1]
    are the first coordinates of the points, [W1[i, j]] being entry
    number [i * hidden_dim + j] of [X]. *)
Theorem initial_weights_repeat_data (E : NumpyEnv)
    n input_dim hidden_dim output_dim rate act g g' net h i j :
  sequential_generator E ->
  MLP_init E input_dim hidden_dim output_dim rate act g' = (Returned net, h) ->
  i < input_dim -> j < hidden_dim ->
  i * hidden_dim + j < 2 * n ->
  let X := fst (fst (generate_data E n g)) in
  let p := i * hidden_dim + j in
  get (W1 net) i j = get X (p / 2) (p mod 2).
Proof.
  intros [draw [next Hseq]] Hinit Hi Hj Hp X p.
  rewrite (@init_W1 E input_dim hidden_dim output_dim rate act g' net h Hinit).
  subst X. rewrite generate_data_unfold. cbn [fst snd].
  rewrite !Hseq. cbn [fst].
  assert (Hq : p / 2 < n) by (apply Nat.Div0.div_lt_upper_bound; exact Hp).
  assert (Hr : p mod 2 < 2) by (apply Nat.mod_upper_bound; lia).
  rewrite get_tabulate by assumption.
  rewrite get_tabulate by assumption.
  do 2 f_equal. fold p.
  pose proof (Nat.div_mod_eq p 2). lia.
Qed.

Lemma iter_S k g : Nat.iter k S g = k + g.
Proof.
  induction k as [|k IH]; [reflexivity|].
  rewrite Nat.iter_succ, IH. reflexivity.
Qed.

Lemma sample_env_sequential : sequential_generator Sample.env.
Proof.
  exists float_of_nat, S. intros r c g. cbn [randn Sample.env].
  rewrite iter_S. apply f_equal2; [|lia].
  apply tabulate_ext. intros i j _ _.
  rewrite iter_S. apply f_equal. lia.
Defined.

Lemma initial_weights_repeat_data_witness :
  let X := fst (fst (generate_data Sample.env 4 11)) in
  let p := 1 * 3 + 2 in
  get (W1 (Sample.built 0.5 "relu" 7)) 1 2 = get X (p / 2) (p mod 2).
Proof.
  apply (@initial_weights_repeat_data Sample.env 4 2 3 1 0.5%float "relu"%string
           11 7 (Sample.built 0.5 "relu" 7) 9 1 2
           sample_env_sequential sample_built); lia.
Defined.

(* ================================================================== *)
(** * Labels with one row, and calls out of order *)
(* ================================================================== *)

(** X14. Labels given as a single row are used for every sample: after
    [forward] on [N] rows, [backward X y] with [y] of shape
    [1 x output_dim] has the outcome and the effect of [backward] with
    that row repeated [N] times. *)
Theorem one_row_labels_are_repeated (E : NumpyEnv)
    input_dim hidden_dim output_dim N s0 X0 A s1 X y :
  network_ok input_dim hidden_dim output_dim s0 ->
  shape X0 = (N, input_dim) ->
  forward E X0 s0 = (Returned A, s1) ->
  shape y = (1, output_dim) ->
  backward E X y s1 = backward E X (repeat_row N y) s1.
Proof.
  intros Hok HX0 Hf Hy.
  pose proof (forward_cache_shapes E Hok HX0) as [_ [_ [_ HA2]]].
  pose proof HX0 as HX'. apply shape_inv in HX'. destruct HX' as [_ HX0c].
  rewrite (@forward_returns E _ _ _ s0 X0 Hok HX0c) in Hf.
  injection Hf as _ <-.
  apply shape_inv in HA2, Hy. destruct HA2 as [HA2r HA2c], Hy as [Hyr Hyc].
  set (A2 := activation s0 _) in *.
  assert (Heq : np_sub A2 y = np_sub A2 (repeat_row N y)).
  { unfold np_sub.
    rewrite np_binop_row by congruence.
    rewrite np_binop_same
      by (unfold repeat_row; cbn [nrows ncols tabulate]; congruence).
    f_equal. apply tabulate_ext. intros i j Hi Hj.
    unfold repeat_row. rewrite get_tabulate by congruence. reflexivity. }
  unfold backward, bind, getattr_opt, lift.
  cbn [a2 after_forward set_a2 set_z2 set_a1 set_z1].
  rewrite Heq. reflexivity.
Qed.

Lemma one_row_labels_are_repeated_witness :
  backward Sample.env Sample.X Sample.y_one_row Sample.net1
  = backward Sample.env Sample.X (repeat_row 2 Sample.y_one_row) Sample.net1.
Proof.
  apply (@one_row_labels_are_repeated Sample.env 2 3 1 2 Sample.net Sample.X Sample.out
           Sample.net1 Sample.X Sample.y_one_row sample_net_ok).
  - reflexivity.
  - exact sample_forward.
  - reflexivity.
Defined.

(** X15. [backward] does not check that a [forward] came in between:
    called twice in a row it returns twice, and the second call computes
    the same [dW2] and [db2] as the first (they are read off the cache
    alone), so the output layer takes the same step a second time. *)
Theorem backward_twice (E : NumpyEnv) input_dim hidden_dim output_dim N s0 X y A s1 :
  network_ok input_dim hidden_dim output_dim s0 ->
  shape X = (N, input_dim) ->
  shape y = (N, output_dim) ->
  forward E X s0 = (Returned A, s1) ->
  exists s2 s3 g g',
    backward E X y s1 = (Returned tt, s2) /\
    backward E X y s2 = (Returned tt, s3) /\
    gradients s2 = Some g /\ gradients s3 = Some g' /\
    dW2 g' = dW2 g /\ db2 g' = db2 g /\
    W2 s3 = Design.descent (lr s1)
              (Design.descent (lr s1) (W2 s1) (dW2 g)) (dW2 g) /\
    b2 s3 = Design.descent (lr s1)
              (Design.descent (lr s1) (b2 s1) (db2 g)) (db2 g).
Proof.
  intros Hok HX Hy Hf.
  pose proof (forward_cache_shapes E Hok HX) as [HZ1 [HA1 [_ HA2]]].
  destruct (step_returns E Hok HX Hy) as [Hf' Hb]. cbn zeta in Hf', Hb.
  rewrite Hf' in Hf. injection Hf as _ <-.
  set (Z1 := Design.affine E X (W1 s0) (b1 s0)) in *.
  set (A1 := activation s0 Z1) in *.
  set (Z2 := Design.affine E A1 (W2 s0) (b2 s0)) in *.
  set (A2 := activation s0 Z2) in *.
  set (s1 := after_forward s0 Z1 A1 Z2 A2) in *.
  set (g := design_gradients E s1 X y Z1 A1 A2) in *.
  set (s2 := after_backward s1 g) in *.
  assert (Hok2 : network_ok input_dim hidden_dim output_dim s2)
    by (apply network_ok_after_backward; exact Hok).
  assert (Hb2 : backward E X y s2
                = (Returned tt, after_backward s2 (design_gradients E s2 X y Z1 A1 A2)))
    by (apply (@backward_returns E input_dim hidden_dim output_dim N s2 X y Z1 A1 A2);
        try assumption; reflexivity).
  exists s2. do 3 eexists.
  split; [exact Hb|]. split; [exact Hb2|].
  repeat split; reflexivity.
Qed.

Lemma backward_twice_witness :
  exists s2 s3 g g',
    backward Sample.env Sample.X Sample.y Sample.net1 = (Returned tt, s2) /\
    backward Sample.env Sample.X Sample.y s2 = (Returned tt, s3) /\
    gradients s2 = Some g /\ gradients s3 = Some g' /\
    dW2 g' = dW2 g /\ db2 g' = db2 g /\
    W2 s3 = Design.descent (lr Sample.net1)
              (Design.descent (lr Sample.net1) (W2 Sample.net1) (dW2 g)) (dW2 g) /\
    b2 s3 = Design.descent (lr Sample.net1)
              (Design.descent (lr Sample.net1) (b2 Sample.net1) (db2 g)) (db2 g).
Proof.
  apply (@backward_twice Sample.env 2 3 1 2 Sample.net Sample.X Sample.y Sample.out
           Sample.net1 sample_net_ok).
  - reflexivity.
  - reflexivity.
  - exact sample_forward.
Defined.
